(** * HID controller health checker

    A shallow embedding of [hid_health_checker.py] and the properties of its
    per-host availability state machine, alert policy and monitor loop.

    The program is one [main] function whose loop body mutates a dict of
    per-host dicts, calls three effectful collaborators ([ping],
    [log_status_change], [send_email]) and reads the wall clock.  The model
    keeps that shape: a state-and-exception monad over a [world] holding the
    [status] dict, the global [controller_status] dict read by the dashboard
    and a chronological trace of every external call.  What the collaborators
    and the clock answer is supplied by an oracle, one record per host visit. *)

From Stdlib Require Import ZArith Bool List Ascii String Lia.
From stdpp Require Import gmap strings list fin_maps.

Local Open Scope Z_scope.

(** ** Python exceptions and results *)

Inductive exn : Type :=
| KeyboardInterrupt
| SystemExit (code : Z)
| TypeError
| KeyError (key : string)
| ValueError
| EnvironmentError (missing : list string)
| OtherError (name : string).

(** [except Exception] catches every class below [Exception];
    [KeyboardInterrupt] and [SystemExit] derive from [BaseException] only. *)
Definition is_Exception (e : exn) : bool :=
  match e with
  | KeyboardInterrupt | SystemExit _ => false
  | _ => true
  end.

Inductive result (A : Type) : Type :=
| Ret (a : A)
| Raise (e : exn).
Arguments Ret {A} a.
Arguments Raise {A} e.

(** ** [datetime] values

    A [datetime] is a number of microseconds plus the presence of a [tzinfo].
    [datetime.utcnow()] builds a naive value, [datetime.now(datetime.UTC)] an
    aware one; subtracting one kind from the other raises [TypeError]. *)

Record datetime : Type := { micros : Z; aware : bool }.

Definition utcnow (clock : Z) : datetime := {| micros := clock; aware := false |}.
Definition now_UTC (clock : Z) : datetime := {| micros := clock; aware := true |}.

Definition datetime_sub (a b : datetime) : result Z :=
  if eqb (aware a) (aware b) then Ret (micros a - micros b) else Raise TypeError.

(** [td.total_seconds() >= n] for an integer [n] of seconds: the timedelta
    [td] is a whole number of microseconds.  The code compares the float
    quotient; the two agree as long as [n] is below 2^34 in absolute value,
    beyond that the quotient of a span one microsecond short may round up
    to [n]. *)
Definition total_seconds_ge (td : Z) (n : Z) : bool := n * 1000000 <=? td.

(** [int(td.total_seconds())] truncates toward zero; exact below 2^34
    seconds, as above. *)
Definition int_total_seconds (td : Z) : Z := Z.quot td 1000000.

(** ** The per-host dict [{"online": .., "changed": .., "alerted": ..}] *)

Record entry : Type := {
  online : option bool;      (* None until the first probe *)
  changed : datetime;
  alerted : bool
}.

Definition with_online (v : bool) (s : entry) : entry :=
  {| online := Some v; changed := changed s; alerted := alerted s |}.
Definition with_changed (d : datetime) (s : entry) : entry :=
  {| online := online s; changed := d; alerted := alerted s |}.
Definition with_alerted (b : bool) (s : entry) : entry :=
  {| online := online s; changed := changed s; alerted := b |}.

(** ** External calls, as they appear in the trace *)

Definition state_str (up : bool) : string :=
  if up then "ONLINE"%string else "OFFLINE"%string.

(** The third column handed to [log_status_change]: line 228 passes
    [s["changed"].isoformat()], line 234 passes the [datetime] object. *)
Inductive sql_changed : Type :=
| Isoformat (d : datetime)
| DatetimeObj (d : datetime).

Record row : Type := { row_ip : string; row_status : string; row_changed : sql_changed }.

(** The two mails [main] composes. *)
Inductive notice : Type :=
| RaiseAlert (ip : string) (offline_seconds : Z)
| ClearAlert (ip : string) (at_time : datetime).

Definition subject (n : notice) : string :=
  match n with
  | RaiseAlert ip _ => "[ALERT] Controller " +:+ ip +:+ " offline"
  | ClearAlert ip _ => "[RECOVERED] Controller " +:+ ip +:+ " back online"
  end.

Inductive level : Type := INFO | WARNING | ERROR.

Inductive message : Type :=
| MsgNoIps
| MsgMonitoring (n : nat) (interval alert_after : Z)
| MsgChanged (ip : string) (state : string)
| MsgAlertSent (ip : string)
| MsgAlertFailed (e : exn)
| MsgRecoverySent (ip : string)
| MsgRecoveryFailed (e : exn)
| MsgCtrlC
| MsgUnhandled (e : exn).

Inductive event : Type :=
| EInitDb
| EDashboard
| EPing (ip : string)
| ELog (lvl : level) (msg : message)
| EHistory (r : row)
| ESend (n : notice)
| ESleep (secs : Z).

(** ** The world the loop runs in *)

(** A value of the global [controller_status]: line 227 stores a copy
    [dict(s)], line 231 stores [s] itself, the very object held by
    [status[ip]]. *)
Inductive published : Type :=
| Copy (s : entry)
| Live (ip : string).

Record world : Type := {
  status : gmap string entry;
  controller_status : gmap string published;
  trace : list event
}.

Definition set_status (f : gmap string entry → gmap string entry) (w : world) : world :=
  {| status := f (status w); controller_status := controller_status w; trace := trace w |}.
Definition set_controller_status (ip : string) (p : published) (w : world) : world :=
  {| status := status w; controller_status := <[ip := p]> (controller_status w);
     trace := trace w |}.
Definition emit (e : event) (w : world) : world :=
  {| status := status w; controller_status := controller_status w;
     trace := trace w ++ [e] |}.

(** What the dashboard template reads through [controller_status]. *)
Definition dashboard_view (w : world) (ip : string) : option entry :=
  match controller_status w !! ip with
  | Some (Copy s) => Some s
  | Some (Live ip') => status w !! ip'
  | None => None
  end.

(** ** The monad: state plus Python exceptions *)

Definition M (A : Type) : Type := world → result A * world.

Definition ret {A} (a : A) : M A := λ w, (Ret a, w).
Definition raise {A} (e : exn) : M A := λ w, (Raise e, w).
Definition bind {A B} (m : M A) (k : A → M B) : M B :=
  λ w, match m w with
       | (Ret a, w') => k a w'
       | (Raise e, w') => (Raise e, w')
       end.

Declare Scope py_scope.
Delimit Scope py_scope with py.
Notation "x <- m ;; k" := (bind m (λ x, k))
  (at level 100, m at next level, right associativity) : py_scope.
Notation "m ;; k" := (bind m (λ _, k))
  (at level 100, right associativity) : py_scope.
Local Open Scope py_scope.

(** [try: body except Exception as exc: handler exc] *)
Definition try_except {A} (body : M A) (handler : exn → M A) : M A :=
  λ w, match body w with
       | (Raise e, w') => if is_Exception e then handler e w' else (Raise e, w')
       | r => r
       end.

Definition exec {A} (m : M A) (w : world) : world := snd (m w).
Definition outcome {A} (m : M A) (w : world) : result A := fst (m w).

(** A call of an external collaborator: it is recorded, then it returns or
    raises what the oracle says. *)
Definition call {A} (e : event) (answer : result A) : M A :=
  λ w, (answer, emit e w).

Definition logging (lvl : level) (msg : message) : M unit :=
  λ w, (Ret tt, emit (ELog lvl msg) w).

(** [s = status[ip]] followed by reads of [s[...]]: the record is read where
    it lives, so a later read sees earlier writes. *)
Definition status_get (ip : string) : M entry :=
  λ w, match status w !! ip with
       | Some s => (Ret s, w)
       | None => (Raise (KeyError ip), w)
       end.

(** [s[field] = v] on the object [status[ip]]. *)
Definition status_set (ip : string) (f : entry → entry) : M unit :=
  λ w, (Ret tt, set_status (alter f ip) w).

Definition publish (ip : string) (p : published) : M unit :=
  λ w, (Ret tt, set_controller_status ip p w).

Definition lift_result {A} (r : result A) : M A := λ w, (r, w).

(** ** The collaborators *)

(** What the outside world answers during one visit of one host.  A field is
    consulted only if the statement on the named line is executed. *)
Record host_io : Type := {
  io_ping : result bool;             (* ping(ip), line 212 *)
  io_clock_change : Z;               (* the clock read on line 218 or 223 *)
  io_history_change : result unit;   (* log_status_change, line 228 *)
  io_history_cycle : result unit;    (* log_status_change, line 234 *)
  io_clock_alert : Z;                (* utcnow(), line 238 *)
  io_clock_mail : Z;                 (* utcnow(), line 254 *)
  io_send : result unit              (* send_email, line 245 or 256 *)
}.

Definition ping (ip : string) (answer : result bool) : M bool :=
  call (EPing ip) answer.

Definition log_status_change (ip st : string) (c : sql_changed) (answer : result unit)
  : M unit :=
  call (EHistory {| row_ip := ip; row_status := st; row_changed := c |}) answer.

Definition send_email (n : notice) (answer : result unit) : M unit :=
  call (ESend n) answer.

(** ** The body of [for ip in ips], block by block *)

(** Lines 215-228: "First observation" and "State change". *)
Definition observe (ip : string) (up : bool) (io : host_io) : M unit :=
  s <- status_get ip ;;
  match online s with
  | None =>
      (status_set ip (with_online up) ;;
       status_set ip (with_changed (utcnow (io_clock_change io))))
  | Some was =>
      if negb (eqb up was) then
        (status_set ip (with_online up) ;;
         status_set ip (with_changed (now_UTC (io_clock_change io))) ;;
         status_set ip (with_alerted false) ;;
         logging WARNING (MsgChanged ip (state_str up)) ;;
         s <- status_get ip ;;
         publish ip (Copy s) ;;
         log_status_change ip (state_str up) (Isoformat (changed s))
           (io_history_change io))
      else ret tt
  end.

(** Lines 230-234: "Update the global status for the dashboard" and "Log the
    status change to the database". *)
Definition publish_and_record (ip : string) (up : bool) (io : host_io) : M unit :=
  publish ip (Live ip) ;;
  s <- status_get ip ;;
  log_status_change ip (state_str up) (DatetimeObj (changed s)) (io_history_cycle io).

(** Lines 236-260: "Handle alerts". *)
Definition handle_alerts (alert_after : Z) (ip : string) (up : bool) (io : host_io)
  : M unit :=
  if negb up then
    (s <- status_get ip ;;
     offline <- lift_result (datetime_sub (utcnow (io_clock_alert io)) (changed s)) ;;
     if total_seconds_ge offline alert_after && negb (alerted s) then
       try_except
         (send_email (RaiseAlert ip (int_total_seconds offline)) (io_send io) ;;
          logging ERROR (MsgAlertSent ip) ;;
          status_set ip (with_alerted true))
         (λ exc, logging ERROR (MsgAlertFailed exc))
     else ret tt)
  else
    (s <- status_get ip ;;
     if alerted s then
       (try_except
          (send_email (ClearAlert ip (utcnow (io_clock_mail io))) (io_send io) ;;
           logging INFO (MsgRecoverySent ip))
          (λ exc, logging ERROR (MsgRecoveryFailed exc)) ;;
        status_set ip (with_alerted false))
     else ret tt).

(** Lines 212-260: one visit of one host. *)
Definition host_step (alert_after : Z) (ip : string) (io : host_io) : M unit :=
  up <- ping ip (io_ping io) ;;
  _ <- status_get ip ;;
  observe ip up io ;;
  publish_and_record ip up io ;;
  handle_alerts alert_after ip up io.

(** ** The loop and its [try] block *)

Record args : Type := { interval : Z; alert_after : Z }.

(** The answers for a whole run: [host_in c i] is what the [i]-th host of the
    list meets in cycle [c], [sleep_in c] is how [time.sleep] ends cycle [c]. *)
Record oracle : Type := {
  host_in : nat → nat → host_io;
  sleep_in : nat → result unit
}.

(** [time.sleep(secs)] rejects a negative length. *)
Definition sleep (secs : Z) (answer : result unit) : M unit :=
  if secs <? 0 then raise ValueError else call (ESleep secs) answer.

(** [for ip in ips: ...], the hosts in list order; [i] counts the visits. *)
Fixpoint for_ips (a : args) (ips : list string) (i : nat) (io : nat → host_io) : M unit :=
  match ips with
  | [] => ret tt
  | ip :: rest => (host_step (alert_after a) ip (io i) ;; for_ips a rest (S i) io)
  end.

Definition cycle (a : args) (ips : list string) (ora : oracle) (c : nat) : M unit :=
  for_ips a ips 0%nat (host_in ora c) ;;
  sleep (interval a) (sleep_in ora c).

(** [while True], unrolled [n] times starting at cycle [c].  The loop has no
    exit of its own: a returned value means that [n] cycles have completed
    and the loop is about to start the next one. *)
Fixpoint while_true (a : args) (ips : list string) (ora : oracle) (c n : nat) : M unit :=
  match n with
  | O => ret tt
  | S n' => (cycle a ips ora c ;; while_true a ips ora (S c) n')
  end.

Inductive progress : Type :=
| Looping     (* the [while True] is still turning *)
| Returned.   (* [main] fell off its end *)

(** Lines 209-267: the [try] statement around the loop. *)
Definition monitor (a : args) (ips : list string) (ora : oracle) (n : nat) : M progress :=
  λ w, match while_true a ips ora 0%nat n w with
       | (Ret _, w') => (Ret Looping, w')
       | (Raise KeyboardInterrupt, w') =>
           (logging INFO MsgCtrlC ;; ret Returned) w'
       | (Raise e, w') =>
           if is_Exception e
           then (logging ERROR (MsgUnhandled e) ;; raise (SystemExit 2)) w'
           else (Raise e, w')
       end.

(** The status with which the interpreter leaves, if it has left. *)
Definition exit_status (r : result progress) : option Z :=
  match r with
  | Ret Looping => None
  | Ret Returned => Some 0
  | Raise (SystemExit code) => Some code
  | Raise KeyboardInterrupt => Some 130
  | Raise _ => Some 1
  end.

(** ** Start-up: lines 53-67 and 175-207 *)

(** [str.isspace].  A [string] of the model is the decoded text, one
    character per code point, and a character of the model is a code point
    below 256: there the white space is 9-13, 28-32, U+0085 and U+00A0. *)
Definition py_isspace (c : ascii) : bool :=
  let n := nat_of_ascii c in
  ((9 <=? n) && (n <=? 13) || (28 <=? n) && (n <=? 32) || (n =? 133) || (n =? 160))%nat.

Fixpoint lstrip (s : string) : string :=
  match s with
  | String c rest => if py_isspace c then lstrip rest else s
  | EmptyString => EmptyString
  end.
Definition rstrip (s : string) : string := String.rev (lstrip (String.rev s)).
Definition strip (s : string) : string := rstrip (lstrip s).

Definition truthy (s : string) : bool :=
  match s with EmptyString => false | _ => true end.

(** [load_ips]: the argument is what opening and reading the file gives, a
    list of lines or the exception of [open]. *)
Definition load_ips (file : result (list string)) : result (list string) :=
  match file with
  | Ret lines =>
      Ret (map strip
             (List.filter (λ line, truthy (strip line) && negb (String.prefix "#" line))
                lines))
  | Raise e => Raise e
  end.

Definition keys : list string :=
  ["EMAIL_HOST"; "EMAIL_PORT"; "EMAIL_USER"; "EMAIL_PASS"; "EMAIL_TO"]%string.

Inductive cfg_value : Type :=
| CfgStr (s : string)
| CfgInt (n : Z).

Definition is_None {A} (o : option A) : bool :=
  match o with None => true | Some _ => false end.

(** What is outside [main]'s loop: the two [init_db] calls, the logging
    set-up, the host file, the clock read for each initial record and the
    start of the dashboard thread. *)
Record startup_io : Type := {
  io_init_db : result unit;            (* line 176 *)
  io_basicConfig : result unit;        (* line 178 *)
  io_ip_file : result (list string);   (* line 55 *)
  io_clock_init : nat → Z;             (* line 192, one read per host *)
  io_init_db_again : result unit;      (* line 204 *)
  io_start_dashboard : result unit     (* line 207 *)
}.

Definition initial_entry (clock : Z) : entry :=
  {| online := None; changed := now_UTC clock; alerted := false |}.

(** The dict comprehension of line 191: a repeated host keeps the record
    built last. *)
Fixpoint build_status (ips : list string) (i : nat) (clock : nat → Z)
    (m : gmap string entry) : gmap string entry :=
  match ips with
  | [] => m
  | ip :: rest => build_status rest (S i) clock (<[ip := initial_entry (clock i)]> m)
  end.

Definition boot : world := {| status := ∅; controller_status := ∅; trace := [] |}.

Section Startup.

(** The builtin [int] on a [str]; [None] stands for its [ValueError]. *)
Variable py_int : string → option Z.

Definition get_email_cfg (environ : gmap string string)
  : result (list (string * cfg_value)) :=
  let cfg := map (λ k, (k, environ !! k)) keys in
  if existsb (λ kv, is_None (snd kv)) cfg then
    Raise (EnvironmentError (map fst (List.filter (λ kv, is_None (snd kv)) cfg)))
  else
    match environ !! "EMAIL_PORT"%string with
    | Some p =>
        match py_int p with
        | Some n =>
            Ret (map (λ kv, (fst kv,
                              if String.eqb (fst kv) "EMAIL_PORT"
                              then CfgInt n
                              else CfgStr (default ""%string (snd kv)))) cfg)
        | None => Raise ValueError
        end
    | None => Raise TypeError
    end.

Definition main (a : args) (start : startup_io) (environ : gmap string string)
    (ora : oracle) (n : nat) : M progress :=
  call EInitDb (io_init_db start) ;;
  lift_result (io_basicConfig start) ;;
  ips <- lift_result (load_ips (io_ip_file start)) ;;
  match ips with
  | [] => (logging ERROR MsgNoIps ;; raise (SystemExit 1))
  | _ =>
      (_ <- lift_result (get_email_cfg environ) ;;
       (λ w, (Ret tt, set_status (build_status ips 0%nat (io_clock_init start)) w)) ;;
       logging INFO (MsgMonitoring (length ips) (interval a) (alert_after a)) ;;
       call EInitDb (io_init_db_again start) ;;
       call EDashboard (io_start_dashboard start) ;;
       monitor a ips ora n)
  end.

End Startup.

(** * Properties *)

(** ** Vocabulary *)

(** [alerted] is set only on a record whose state is Offline. *)
Definition alert_inv (s : entry) : Prop :=
  alerted s = true → online s = Some false.

Definition world_inv (w : world) : Prop :=
  ∀ ip s, status w !! ip = Some s → alert_inv s.

(** The external calls a computation adds to the trace. *)
Definition emitted {A} (m : M A) (w : world) : list event :=
  drop (length (trace w)) (trace (exec m w)).

Definition is_ping (e : event) : bool :=
  match e with EPing _ => true | _ => false end.
Definition is_history (e : event) : bool :=
  match e with EHistory _ => true | _ => false end.
Definition is_raise_alert (e : event) : bool :=
  match e with ESend (RaiseAlert _ _) => true | _ => false end.
Definition is_clear_alert (e : event) : bool :=
  match e with ESend (ClearAlert _ _) => true | _ => false end.
Definition is_send (e : event) : bool :=
  match e with ESend _ => true | _ => false end.
Definition is_transition_row (e : event) : bool :=
  match e with
  | EHistory {| row_changed := Isoformat _ |} => true
  | _ => false
  end.
Definition is_warning (e : event) : bool :=
  match e with ELog WARNING _ => true | _ => false end.

Definition count (p : event → bool) (l : list event) : nat :=
  length (List.filter p l).

(** The condition of line 239, on a record and a reading of the clock. *)
Definition raise_due (a : Z) (now : Z) (s : entry) : Prop :=
  online s = Some false ∧ alerted s = false ∧ a * 1000000 ≤ now - micros (changed s).

(** A computation that maintains a property of the world, whether it
    returns or raises. *)
Definition preserves {A} (P : world → Prop) (m : M A) : Prop :=
  ∀ w, P w → P (exec m w).

(** The interpreter has left with a status other than 0. *)
Definition exits_nonzero (r : result progress) : Prop :=
  ∃ code, exit_status r = Some code ∧ code ≠ 0.

(** An answer of a collaborator that is not a [sys.exit] of its own. *)
Definition ordinary {A} (r : result A) : Prop :=
  ∀ code, r ≠ Raise (SystemExit code).

Definition is_row_of (ip : string) (e : event) : bool :=
  match e with
  | EHistory r => String.eqb (row_ip r) ip
  | _ => false
  end.

(** What every run maintains: the record invariant, and a trace without a
    single recovery mail. *)
Definition run_inv (w : world) : Prop :=
  world_inv w ∧ count is_clear_alert (trace w) = 0%nat.

(** ** Scenarios *)

(** A visit in which every collaborator answers and the clock stands at
    [clock] microseconds. *)
Definition calm (up : bool) (clock : Z) : host_io :=
  {| io_ping := Ret up; io_clock_change := clock; io_history_change := Ret tt;
     io_history_cycle := Ret tt; io_clock_alert := clock; io_clock_mail := clock;
     io_send := Ret tt |}.

Definition newline : string := String (ascii_of_nat 10) EmptyString.

Definition hosts_file : list string :=
  ["# controllers" +:+ newline; "10.0.0.1" +:+ newline; newline;
   "  10.0.0.2  " +:+ newline]%string.

Definition fair_start (lines : list string) : startup_io :=
  {| io_init_db := Ret tt; io_basicConfig := Ret tt; io_ip_file := Ret lines;
     io_clock_init := λ _, 0; io_init_db_again := Ret tt;
     io_start_dashboard := Ret tt |}.

Definition full_environ : gmap string string :=
  list_to_map [("EMAIL_HOST", "smtp.example.org"); ("EMAIL_PORT", "465");
               ("EMAIL_USER", "monitor@example.org"); ("EMAIL_PASS", "secret");
               ("EMAIL_TO", "ops@example.org")]%string.

Definition int_465 (s : string) : option Z :=
  if String.eqb s "465" then Some 465 else None.

Definition seconds (c : nat) : Z := Z.of_nat c * 1000000.

(** Cycle [c] runs at second [c]; the first host answers the pings as listed
    (online once the list is used up), every other host is online. *)
Definition oracle_of (probes : list bool) : oracle :=
  {| host_in := λ c i,
       calm (match i with O => nth c probes true | _ => true end) (seconds c);
     sleep_in := λ _, Ret tt |}.

(** The end-to-end setting of the design: interval 1 s, threshold 3 s. *)
Definition spec_args : args := {| interval := 1; alert_after := 3 |}.

Definition run_main (probes : list bool) (n : nat) : result progress * world :=
  main int_465 spec_args (fair_start hosts_file) full_environ (oracle_of probes) n boot.

(** The history database refuses the row of the first visit. *)
Definition oracle_db_locked : oracle :=
  {| host_in := λ c i,
       match c, i with
       | O, O =>
           {| io_ping := Ret true; io_clock_change := 0; io_history_change := Ret tt;
              io_history_cycle := Raise (OtherError "sqlite3.OperationalError");
              io_clock_alert := 0; io_clock_mail := 0; io_send := Ret tt |}
       | _, _ => calm true (seconds c)
       end;
     sleep_in := λ _, Ret tt |}.

Definition one_host : world :=
  {| status := {[ "10.0.0.1"%string := initial_entry 0 ]};
     controller_status := ∅; trace := [] |}.

(** A host seen online at second 0. *)
Definition steady_host : world :=
  {| status := {[ "10.0.0.1"%string :=
                    {| online := Some true; changed := utcnow 0; alerted := false |} ]};
     controller_status := ∅; trace := [] |}.

(** A host seen offline at its first probe, at second 0, and not alerted. *)
Definition overdue_host : world :=
  {| status := {[ "10.0.0.1"%string :=
                    {| online := Some false; changed := utcnow 0; alerted := false |} ]};
     controller_status := ∅; trace := [] |}.

(** The mail server refuses the message. *)
Definition smtp_down (clock : Z) : host_io :=
  {| io_ping := Ret false; io_clock_change := clock; io_history_change := Ret tt;
     io_history_cycle := Ret tt; io_clock_alert := clock; io_clock_mail := clock;
     io_send := Raise (OtherError "smtplib.SMTPException") |}.

Definition comments_only : list string :=
  ["# controllers" +:+ newline; newline]%string.

Definition environ_without_pass : gmap string string :=
  delete "EMAIL_PASS"%string full_environ.

(** ** More of the module *)

(** [s.split(sep)] for a separator of one character. *)
Fixpoint py_split (sep : ascii) (s : string) : list string :=
  match s with
  | EmptyString => [EmptyString]
  | String c rest =>
      if Ascii.eqb c sep then EmptyString :: py_split sep rest
      else match py_split sep rest with
           | [] => [String c EmptyString]
           | piece :: pieces => String c piece :: pieces
           end
  end.

Definition result_bind {A B} (r : result A) (k : A → result B) : result B :=
  match r with
  | Ret x => k x
  | Raise e => Raise e
  end.

(** [cfg[k]] on the dict returned by [get_email_cfg]. *)
Definition cfg_lookup (cfg : list (string * cfg_value)) (k : string) : result cfg_value :=
  match List.find (λ kv, String.eqb (fst kv) k) cfg with
  | Some kv => Ret (snd kv)
  | None => Raise (KeyError k)
  end.

(** What [send_email] hands to [smtplib]: the arguments of [SMTP_SSL],
    [login] and [sendmail]. *)
Record smtp_session : Type := {
  smtp_host : cfg_value;
  smtp_port : cfg_value;
  login_user : cfg_value;
  login_pass : cfg_value;
  mail_from : cfg_value;
  rcpt_to : list string;
  mail_data : string
}.

(** Lines 46-50, the dict look-ups in the order [send_email] makes them;
    [.split] exists on a [str] only. *)
Definition send_email_args (subj body : string) (cfg : list (string * cfg_value))
  : result smtp_session :=
  let message := ("Subject: " +:+ subj +:+ newline +:+ newline +:+ body)%string in
  result_bind (cfg_lookup cfg "EMAIL_HOST") (λ host,
  result_bind (cfg_lookup cfg "EMAIL_PORT") (λ port,
  result_bind (cfg_lookup cfg "EMAIL_USER") (λ user,
  result_bind (cfg_lookup cfg "EMAIL_PASS") (λ pass,
  result_bind (cfg_lookup cfg "EMAIL_USER") (λ sender,
  result_bind (cfg_lookup cfg "EMAIL_TO") (λ to,
    match to with
    | CfgStr s =>
        Ret {| smtp_host := host; smtp_port := port; login_user := user;
               login_pass := pass; mail_from := sender;
               rcpt_to := py_split "," s; mail_data := message |}
    | CfgInt _ => Raise (OtherError "AttributeError")
    end)))))).

(** The cell of the dashboard template, lines 93-94: the truth value of
    [info['online']] picks the class and the label. *)
Definition dashboard_label (s : entry) : string :=
  match online s with
  | Some true => "ONLINE"%string
  | _ => "OFFLINE"%string
  end.

(** ** More vocabulary *)

(** The hosts pinged, in the order of the calls. *)
Definition pings_of (l : list event) : list string :=
  omap (λ e, match e with EPing ip => Some ip | _ => None end) l.

Definition is_sleep (e : event) : bool :=
  match e with ESleep _ => true | _ => false end.

Definition is_alert_for (ip : string) (e : event) : bool :=
  match e with
  | ESend (RaiseAlert ip' _) => String.eqb ip' ip
  | _ => false
  end.

(** The settings [os.getenv] does not find, in the order of [keys]. *)
Definition missing_keys (environ : gmap string string) : list string :=
  List.filter (λ k, is_None (environ !! k)) keys.

Fixpoint contains (c : ascii) (s : string) : bool :=
  match s with
  | EmptyString => false
  | String x rest => Ascii.eqb x c || contains c rest
  end.

Fixpoint occurrences (c : ascii) (s : string) : nat :=
  match s with
  | EmptyString => O
  | String x rest => ((if Ascii.eqb x c then 1 else 0) + occurrences c rest)%nat
  end.

Definition starts_clean (s : string) : Prop :=
  ∃ c rest, s = String c rest ∧ py_isspace c = false.

Definition ends_clean (s : string) : Prop :=
  ∃ c front, s = (front +:+ String c EmptyString)%string ∧ py_isspace c = false.

(** Two hosts, as [main] leaves them before the first cycle. *)
Definition two_hosts : world :=
  {| status := build_status ["10.0.0.1"; "10.0.0.2"]%string 0 (λ _, 0) ∅;
     controller_status := ∅; trace := [] |}.

(** A host seen offline at its first probe, at second 0, and alerted. *)
Definition alerted_host : world :=
  {| status := {[ "10.0.0.1"%string :=
                    {| online := Some false; changed := utcnow 0; alerted := true |} ]};
     controller_status := ∅; trace := [] |}.

(** Ctrl-C arrives while the mail is being sent. *)
Definition interrupted_mail (clock : Z) : host_io :=
  {| io_ping := Ret false; io_clock_change := clock; io_history_change := Ret tt;
     io_history_cycle := Ret tt; io_clock_alert := clock; io_clock_mail := clock;
     io_send := Raise KeyboardInterrupt |}.

(** No host ever answers. *)
Definition always_offline : oracle :=
  {| host_in := λ c _, calm false (seconds c); sleep_in := λ _, Ret tt |}.


(** U+00A0, the no-break space. *)
Definition nbsp : string := String (ascii_of_nat 160) EmptyString.

Definition nbsp_file : list string :=
  [nbsp +:+ "10.0.0.1" +:+ nbsp +:+ newline; nbsp +:+ newline]%string.

(** ** Running the model inside proofs *)

Ltac unfold_py :=
  unfold host_step, observe, publish_and_record, handle_alerts, ping, log_status_change,
    send_email, sleep, try_except, bind, ret, raise, call, logging, status_get,
    status_set, publish, lift_result, datetime_sub in *.

Ltac py_simpl :=
  repeat (progress cbn [fst snd status trace controller_status set_status emit
                        set_controller_status fmap option_fmap option_map
                        online changed alerted with_online with_changed with_alerted
                        micros aware utcnow now_UTC negb eqb andb]
          || rewrite lookup_alter_eq).

(** Split on the scrutinee that blocks evaluation, innermost first. *)
Ltac py_case :=
  match goal with
  | |- context [match ?x with _ => _ end] =>
      lazymatch x with
      | context [match _ with _ => _ end] => fail
      | _ => let E := fresh "E" in destruct x eqn:E
      end
  end.

Ltac py_run H := repeat first [progress py_simpl | rewrite H | py_case].

Lemma exec_bind {A B} (m : M A) (k : A → M B) w :
  exec (bind m k) w =
  match outcome m w with
  | Ret a => exec (k a) (exec m w)
  | Raise _ => exec m w
  end.
Proof. unfold exec, outcome, bind. by destruct (m w) as [[x|e] w']. Qed.

Lemma preserves_bind {A B} (P : world → Prop) (m : M A) (k : A → M B) :
  preserves P m → (∀ x, preserves P (k x)) → preserves P (bind m k).
Proof.
  intros Hm Hk w Hw. rewrite exec_bind.
  destruct (outcome m w); [apply Hk|]; by apply Hm.
Qed.

Lemma preserves_ret {A} (P : world → Prop) (x : A) : preserves P (ret x).
Proof. by intros w Hw. Qed.

Lemma emitted_app {A} (m : M A) w l :
  trace (exec m w) = trace w ++ l → emitted m w = l.
Proof. intros E. unfold emitted. rewrite E. apply drop_app_length. Qed.

(** ** Frame: a visit touches no other host's record *)

Lemma host_step_other a ip ip' io w :
  ip ≠ ip' → status (exec (host_step a ip io) w) !! ip' = status w !! ip'.
Proof.
  intros Hne. unfold exec. unfold_py.
  repeat first [progress py_simpl | rewrite lookup_alter_ne by done | py_case];
    reflexivity.
Qed.

(** ** The three blocks, record by record *)

Lemma observe_at ip up io w s :
  status w !! ip = Some s →
  ∃ s', status (exec (observe ip up io) w) !! ip = Some s'
        ∧ online s' = Some up
        ∧ (alert_inv s → alert_inv s').
Proof.
  intros H. unfold exec. unfold_py. py_run H.
  all: eexists; split; [reflexivity|]; unfold alert_inv; simpl.
  all: try (destruct up, b; simpl in *; try discriminate).
  all: try (split; [congruence|]).
  all: intros Hs Ha; try discriminate; try (specialize (Hs Ha)); congruence.
Qed.

Lemma publish_and_record_status ip up io w :
  status (exec (publish_and_record ip up io) w) = status w.
Proof. unfold exec. unfold_py. py_simpl. by repeat py_case. Qed.

Lemma handle_alerts_at a ip up io w s :
  status w !! ip = Some s → online s = Some up → alert_inv s →
  ∃ s', status (exec (handle_alerts a ip up io) w) !! ip = Some s'
        ∧ online s' = Some up ∧ changed s' = changed s ∧ alert_inv s'.
Proof.
  intros H Hup Hs. unfold exec. unfold_py. py_run H.
  all: eexists; split; [eassumption || reflexivity|]; unfold alert_inv in *; simpl.
  all: destruct up; try discriminate; repeat split; try congruence.
  all: intros Ha; specialize (Hs Ha); congruence.
Qed.

Lemma observe_other ip ip' up io w :
  ip ≠ ip' → status (exec (observe ip up io) w) !! ip' = status w !! ip'.
Proof.
  intros Hne. unfold exec. unfold_py.
  repeat first [progress py_simpl | rewrite lookup_alter_ne by done | py_case];
    reflexivity.
Qed.

Lemma handle_alerts_other a ip ip' up io w :
  ip ≠ ip' → status (exec (handle_alerts a ip up io) w) !! ip' = status w !! ip'.
Proof.
  intros Hne. unfold exec. unfold_py.
  repeat first [progress py_simpl | rewrite lookup_alter_ne by done | py_case];
    reflexivity.
Qed.

Lemma host_step_at a ip io w s :
  status w !! ip = Some s → alert_inv s →
  ∃ s', status (exec (host_step a ip io) w) !! ip = Some s' ∧ alert_inv s'.
Proof.
  intros H Hs. unfold exec. unfold_py. py_run H.
  all: eexists; split; [eassumption || reflexivity|]; unfold alert_inv in *; simpl.
  all: try assumption.
  all: repeat match goal with b : bool |- _ => destruct b end; simpl in *;
    try discriminate; try congruence.
  all: intros Ha; specialize (Hs Ha); congruence.
Qed.

(** A block that leaves the other records alone and keeps [alert_inv] on
    its own record keeps it on the whole dict. *)
Lemma world_inv_step ip (w w' : world) :
  (∀ ip', ip ≠ ip' → status w' !! ip' = status w !! ip') →
  (status w !! ip = None → status w' !! ip = None) →
  (∀ s, status w !! ip = Some s → alert_inv s →
        ∃ s', status w' !! ip = Some s' ∧ alert_inv s') →
  world_inv w → world_inv w'.
Proof.
  intros Hother Hnone Hat Hw ip' s' Hs'.
  destruct (decide (ip = ip')) as [<-|Hne].
  - destruct (status w !! ip) as [s|] eqn:Hs.
    + destruct (Hat s eq_refl (Hw _ _ Hs)) as (s'' & E & Hinv).
      rewrite E in Hs'. by injection Hs' as <-.
    + rewrite (Hnone eq_refl) in Hs'. discriminate.
  - rewrite (Hother _ Hne) in Hs'. eauto.
Qed.

Lemma observe_none ip up io w :
  status w !! ip = None → status (exec (observe ip up io) w) !! ip = None.
Proof. intros H. unfold exec. unfold_py. by py_run H. Qed.

Lemma handle_alerts_none a ip up io w :
  status w !! ip = None → status (exec (handle_alerts a ip up io) w) !! ip = None.
Proof. intros H. unfold exec. unfold_py. by py_run H. Qed.

Lemma host_step_none a ip io w :
  status w !! ip = None → status (exec (host_step a ip io) w) !! ip = None.
Proof. intros H. unfold exec. unfold_py. by py_run H. Qed.

Lemma host_step_preserves_inv a ip io : preserves world_inv (host_step a ip io).
Proof.
  intros w. apply (world_inv_step ip).
  - intros. by apply host_step_other.
  - apply host_step_none.
  - apply host_step_at.
Qed.

(** C3. Whenever every record has [alerted] set only in state Offline, the
    same holds after the observation block (first observation, state flip or
    unchanged reading), after the alert block (raising an alert or sending a
    recovery) run on the state the observation left, and so after the whole
    visit of a host, whether the visit returns or raises. *)
Theorem alerted_only_while_offline a ip up io w :
  world_inv w →
  world_inv (exec (observe ip up io) w)
  ∧ ((∀ s, status w !! ip = Some s → online s = Some up) →
     world_inv (exec (handle_alerts a ip up io) w))
  ∧ world_inv (exec (host_step a ip io) w).
Proof.
  intros Hw. split; [|split].
  - revert Hw. apply (world_inv_step ip).
    + intros. by apply observe_other.
    + apply observe_none.
    + intros s Hs Hinv. destruct (observe_at ip up io w s Hs) as (s' & E & _ & Hk).
      eauto.
  - intros Hup. revert Hw. apply (world_inv_step ip).
    + intros. by apply handle_alerts_other.
    + apply handle_alerts_none.
    + intros s Hs Hinv.
      destruct (handle_alerts_at a ip up io w s Hs (Hup _ Hs) Hinv)
        as (s' & E & _ & _ & Hk).
      eauto.
  - by apply host_step_preserves_inv.
Qed.

(** ** Traces *)

Ltac emitted_eval H :=
  unfold emitted, exec; unfold_py; py_run H;
  rewrite <- ?app_assoc; rewrite ?drop_app_length, ?drop_all.

(** C10. The first observation of a host (its record still has no state and
    no alert) stores the probe result as the state and the clock reading as
    the time of change, leaves [alerted] false, logs nothing and asks for no
    history row; in the whole visit no warning is logged and no row with the
    transition's ISO time stamp is requested. *)
Theorem first_observation_is_silent a ip up io w s :
  status w !! ip = Some s → online s = None → alerted s = false →
  outcome (observe ip up io) w = Ret tt
  ∧ status (exec (observe ip up io) w) !! ip =
      Some {| online := Some up; changed := utcnow (io_clock_change io);
              alerted := false |}
  ∧ trace (exec (observe ip up io) w) = trace w
  ∧ controller_status (exec (observe ip up io) w) = controller_status w
  ∧ (io_ping io = Ret up →
       count is_warning (emitted (host_step a ip io) w) = 0%nat
       ∧ count is_transition_row (emitted (host_step a ip io) w) = 0%nat).
Proof.
  intros H Hnone Hal. repeat split.
  - unfold outcome. unfold_py. rewrite H, Hnone. reflexivity.
  - unfold exec. unfold_py. rewrite H, Hnone. py_simpl. rewrite H. py_simpl.
    destruct s; simpl in *. by subst.
  - unfold exec. unfold_py. by rewrite H, Hnone.
  - unfold exec. unfold_py. by rewrite H, Hnone.
  - emitted_eval H; try congruence; reflexivity.
  - emitted_eval H; try congruence; reflexivity.
Qed.

(** C6. A visit whose probe result equals the state already recorded leaves
    the time of change as it was; the time of change differs after a visit
    only if the state went from Unknown to Online, Unknown to Offline,
    Online to Offline or Offline to Online. *)
Theorem changed_only_on_transition a ip io w s :
  status w !! ip = Some s →
  ∃ s', status (exec (host_step a ip io) w) !! ip = Some s'
    ∧ (∀ b, online s = Some b → io_ping io = Ret b → changed s' = changed s)
    ∧ (changed s' ≠ changed s →
         (online s = None ∧ online s' = Some true)
         ∨ (online s = None ∧ online s' = Some false)
         ∨ (online s = Some true ∧ online s' = Some false)
         ∨ (online s = Some false ∧ online s' = Some true)).
Proof.
  intros H. unfold exec. unfold_py. py_run H.
  all: eexists; split; [eassumption || reflexivity|]; simpl.
  all: split; [intros b' Hb' Hp; try congruence|intros Hne; try congruence].
  all: repeat match goal with b : bool |- _ => destruct b end; simpl in *;
    try discriminate; try congruence; auto.
Qed.

(** ** Raising an alert *)

Ltac py_rw H := repeat first [progress py_simpl | rewrite H].

(** On a record whose time of change is naive, the alert block asks for an
    alert mail when the condition of line 239 holds. *)
Lemma alert_attempted_when_due a ip io' w1 s1 :
  status w1 !! ip = Some s1 →
  aware (changed s1) = false →
  io_ping io' = Ret false → io_history_cycle io' = Ret tt →
  raise_due a (io_clock_alert io') s1 →
  In (ESend (RaiseAlert ip (int_total_seconds (io_clock_alert io' - micros (changed s1)))))
     (emitted (host_step a ip io') w1).
Proof.
  intros H1 Hnaive Hp Hh (Hoff & Hal & Hdue).
  apply Z.leb_le in Hdue.
  unfold emitted, exec. unfold_py. unfold total_seconds_ge.
  rewrite Hp, Hh. py_rw H1. rewrite Hoff. py_rw H1. rewrite Hnaive, Hal, Hdue. py_simpl.
  destruct (io_send io') as [[]|e]; [|destruct (is_Exception e)]; py_simpl;
    rewrite <- ?app_assoc, drop_app_length; simpl; auto 10.
Qed.

(** A visit that asked for an alert mail and saw it fail returns, and leaves
    the record Offline, not alerted, with a naive time of change. *)
Lemma failed_attempt_leaves a ip io w s secs e :
  status w !! ip = Some s →
  In (ESend (RaiseAlert ip secs)) (emitted (host_step a ip io) w) →
  io_send io = Raise e → is_Exception e = true →
  outcome (host_step a ip io) w = Ret tt
  ∧ ∃ s1, status (exec (host_step a ip io) w) !! ip = Some s1
      ∧ online s1 = Some false ∧ alerted s1 = false ∧ aware (changed s1) = false.
Proof.
  intros H Hin Hsend Hexc. revert Hin.
  unfold emitted, outcome, exec. unfold_py. rewrite Hsend. py_run H.
  all: rewrite <- ?app_assoc; rewrite ?drop_app_length, ?drop_all; simpl.
  all: intros Hin; repeat (destruct Hin as [Hin|Hin]; try discriminate Hin);
    try contradiction.
  all: try congruence.
  all: split; [reflexivity|eexists; split; [eassumption || reflexivity|]]; simpl.
  all: repeat match goal with b : bool |- _ => destruct b end; simpl in *;
    try discriminate.
  all: match goal with E : _ && negb _ = true |- _ =>
         apply andb_true_iff in E as [_ E]; apply negb_true_iff in E end; auto.
Qed.

(** C7. When a visit asks for an alert mail and the delivery fails with an
    exception, the visit still returns and the record's [alerted] stays
    false; at any later visit that finds this record, probes the host
    offline again and finds the condition of line 239 true, an alert mail is
    asked for again. *)
Theorem failed_alert_is_retried a ip io w s secs e :
  status w !! ip = Some s →
  In (ESend (RaiseAlert ip secs)) (emitted (host_step a ip io) w) →
  io_send io = Raise e → is_Exception e = true →
  outcome (host_step a ip io) w = Ret tt
  ∧ ∃ s1, status (exec (host_step a ip io) w) !! ip = Some s1
      ∧ alerted s1 = false
      ∧ ∀ io' w1, status w1 !! ip = Some s1 →
          io_ping io' = Ret false → io_history_cycle io' = Ret tt →
          raise_due a (io_clock_alert io') s1 →
          ∃ secs', In (ESend (RaiseAlert ip secs')) (emitted (host_step a ip io') w1).
Proof.
  intros H Hin Hsend Hexc.
  destruct (failed_attempt_leaves a ip io w s secs e H Hin Hsend Hexc)
    as (Hret & s1 & Hs1 & Hoff & Hal & Hnaive).
  split; [exact Hret|]. exists s1. repeat split; try assumption.
  intros io' w1 H1 Hp Hh Hdue. eexists.
  by apply (alert_attempted_when_due a ip io' w1 s1).
Qed.

(** A visit turns [alerted] on only after [send_email] has returned from
    an alert mail. *)
Lemma alerted_set_only_on_delivery a ip io w s s' :
  status w !! ip = Some s → alerted s = false →
  status (exec (host_step a ip io) w) !! ip = Some s' → alerted s' = true →
  io_send io = Ret tt
  ∧ ∃ secs, In (ESend (RaiseAlert ip secs)) (emitted (host_step a ip io) w).
Proof.
  intros H Hal. unfold emitted, exec. unfold_py. py_run H.
  all: rewrite <- ?app_assoc; rewrite ?drop_app_length, ?drop_all; simpl.
  all: intros [= <-]; simpl; intros Ha; try congruence.
  all: repeat match goal with u : unit |- _ => destruct u end.
  all: split; [reflexivity|eauto 10].
Qed.

(** While a record stays alerted and the host stays offline, no further
    alert mail is requested. *)
Lemma alerted_host_not_alerted_again a ip io w s :
  status w !! ip = Some s → online s = Some false → alerted s = true →
  io_ping io = Ret false →
  count is_raise_alert (emitted (host_step a ip io) w) = 0%nat
  ∧ alerted <$> status (exec (host_step a ip io) w) !! ip = Some true.
Proof.
  intros H Hoff Hal Hp.
  assert (Hno : ∀ b, b && negb (alerted s) = true → False).
  { intros b. rewrite Hal, andb_false_r. discriminate. }
  split.
  - unfold emitted, exec. unfold_py. rewrite Hp. py_run H.
    all: try (exfalso; eapply Hno; eassumption).
    all: try congruence.
    all: rewrite <- ?app_assoc; rewrite ?drop_app_length, ?drop_all; reflexivity.
  - unfold exec. unfold_py. rewrite Hp. py_run H.
    all: try (exfalso; eapply Hno; eassumption).
    all: congruence.
Qed.

(** ** Whole runs *)

Lemma count_app p l1 l2 : count p (l1 ++ l2) = (count p l1 + count p l2)%nat.
Proof. unfold count. by rewrite List.filter_app, length_app. Qed.

Lemma host_step_no_clear a ip io w :
  world_inv w →
  count is_clear_alert (trace (exec (host_step a ip io) w))
  = count is_clear_alert (trace w).
Proof.
  intros Hw. destruct (status w !! ip) as [s|] eqn:H.
  - pose proof (Hw _ _ H) as Hs. unfold alert_inv in Hs.
    unfold exec. unfold_py. py_run H.
    all: rewrite ?count_app; unfold count; simpl; try lia.
    all: repeat match goal with b : bool |- _ => destruct b end; simpl in *;
      try discriminate.
    all: specialize (Hs eq_refl); congruence.
  - unfold exec. unfold_py. py_run H. all: rewrite ?count_app; unfold count; simpl; lia.
Qed.

Lemma host_step_preserves a ip io : preserves run_inv (host_step a ip io).
Proof.
  intros w [Hw Hc]. split.
  - by apply host_step_preserves_inv.
  - by rewrite host_step_no_clear.
Qed.

Lemma emit_preserves e w :
  is_clear_alert e = false → run_inv w → run_inv (emit e w).
Proof.
  intros He [Hw Hc]. split; [exact Hw|].
  simpl. rewrite count_app, Hc. unfold count. simpl. by rewrite He.
Qed.

Lemma call_preserves {A} e (r : result A) :
  is_clear_alert e = false → preserves run_inv (call e r).
Proof. intros He w Hw. by apply emit_preserves. Qed.

Lemma logging_preserves lvl msg : preserves run_inv (logging lvl msg).
Proof. intros w Hw. by apply emit_preserves. Qed.

Lemma lift_result_preserves {A} (r : result A) : preserves run_inv (lift_result r).
Proof. by intros w Hw. Qed.

Lemma raise_preserves {A} e : preserves run_inv (@raise A e).
Proof. by intros w Hw. Qed.

Lemma for_ips_preserves a ips i io : preserves run_inv (for_ips a ips i io).
Proof.
  revert i. induction ips as [|ip rest IH]; intros i; simpl.
  - apply preserves_ret.
  - apply preserves_bind; [apply host_step_preserves|intros _; apply IH].
Qed.

Lemma sleep_preserves secs r : preserves run_inv (sleep secs r).
Proof.
  unfold sleep. destruct (secs <? 0); [apply raise_preserves|by apply call_preserves].
Qed.

Lemma cycle_preserves a ips ora c : preserves run_inv (cycle a ips ora c).
Proof.
  apply preserves_bind; [apply for_ips_preserves|intros _; apply sleep_preserves].
Qed.

Lemma while_true_preserves a ips ora c n : preserves run_inv (while_true a ips ora c n).
Proof.
  revert c. induction n as [|n IH]; intros c; simpl.
  - apply preserves_ret.
  - apply preserves_bind; [apply cycle_preserves|intros _; apply IH].
Qed.

Lemma monitor_preserves a ips ora n : preserves run_inv (monitor a ips ora n).
Proof.
  intros w Hw. pose proof (while_true_preserves a ips ora 0%nat n w Hw) as Hr.
  unfold exec, monitor in *.
  destruct (while_true a ips ora 0%nat n w) as [[[]|e] w']; simpl in *; [done|].
  destruct e; simpl; try by apply emit_preserves. done.
Qed.

Lemma build_status_inv ips i clock (m : gmap string entry) :
  (∀ ip s, m !! ip = Some s → alert_inv s) →
  ∀ ip s, build_status ips i clock m !! ip = Some s → alert_inv s.
Proof.
  revert i m. induction ips as [|ip0 rest IH]; intros i m Hm; simpl; [exact Hm|].
  apply IH. intros ip s. destruct (decide (ip0 = ip)) as [->|Hne].
  - rewrite lookup_insert_eq. intros [= <-]. by intros Ha.
  - rewrite lookup_insert_ne by done. apply Hm.
Qed.

Lemma main_preserves py_int a start environ ora n :
  preserves run_inv (main py_int a start environ ora n).
Proof.
  unfold main.
  apply preserves_bind; [by apply call_preserves|intros _].
  apply preserves_bind; [apply lift_result_preserves|intros _].
  apply preserves_bind; [apply lift_result_preserves|intros ips].
  destruct ips as [|ip rest].
  - apply preserves_bind; [apply logging_preserves|intros _; apply raise_preserves].
  - apply preserves_bind; [apply lift_result_preserves|intros _].
    apply preserves_bind.
    { intros w [Hw Hc]. split; [|exact Hc].
      intros ip' s. unfold exec. cbn [snd set_status status].
      apply build_status_inv. exact Hw. }
    intros _. apply preserves_bind; [apply logging_preserves|intros _].
    apply preserves_bind; [by apply call_preserves|intros _].
    apply preserves_bind; [by apply call_preserves|intros _].
    apply monitor_preserves.
Qed.

Lemma boot_inv : run_inv boot.
Proof. split; [|reflexivity]. intros ip s. simpl. by rewrite lookup_empty. Qed.

(** In every run of [main], whatever the hosts, the probes, the clock and
    the collaborators do, the recovery mail of lines 253-257 is never
    requested, and no record is ever alerted outside state Offline. *)
Lemma recovery_mail_is_dead py_int a start environ ora n :
  let w := exec (main py_int a start environ ora n) boot in
  world_inv w ∧ count is_clear_alert (trace w) = 0%nat.
Proof. apply main_preserves, boot_inv. Qed.

(** ** The recovery mail *)

(** Lines 250-260 taken alone do what their comment says: on a record that
    is Online and alerted they ask for one recovery mail and clear the flag,
    also when the delivery fails with an exception. *)
Lemma recovery_block_alone a ip io w s :
  status w !! ip = Some s → alerted s = true →
  (∀ e, io_send io = Raise e → is_Exception e = true) →
  count is_clear_alert (emitted (handle_alerts a ip true io) w) = 1%nat
  ∧ alerted <$> status (exec (handle_alerts a ip true io) w) !! ip = Some false.
Proof.
  intros H Hal Hsend. split.
  - emitted_eval H; try congruence; reflexivity.
  - unfold exec. unfold_py. py_run H; try congruence.
    specialize (Hsend _ eq_refl). congruence.
Qed.



(** In a whole run that state does not arise.  A host that is offline from
    its first probe on gets its alert mail
    once the outage has lasted the threshold; when it then answers again,
    the state flips back to Online with [alerted] already cleared by the
    flip (line 224), so the check on line 252 fails: the only mail of the
    whole run is the alert, no recovery mail is requested. *)
Theorem recovery_after_alert_sends_no_mail :
  let r := run_main [false; false; false; false; true; true] 6 in
  fst r = Ret Looping
  ∧ List.filter is_send (trace (snd r)) = [ESend (RaiseAlert "10.0.0.1" 3)]
  ∧ count is_clear_alert (trace (snd r)) = 0%nat
  ∧ status (snd r) !! "10.0.0.1"%string =
      Some {| online := Some true; changed := now_UTC (seconds 4); alerted := false |}.
Proof. vm_compute. repeat split. Qed.

(** ** Outages that follow an online reading *)

(** A visit that sees an Online host go offline stores an aware time stamp
    (line 223) and subtracts it from a naive one fifteen lines later: the
    visit raises [TypeError] before the alert condition is looked at. *)
Lemma flip_to_offline_raises a ip io w s :
  status w !! ip = Some s → online s = Some true →
  io_ping io = Ret false →
  io_history_change io = Ret tt → io_history_cycle io = Ret tt →
  outcome (host_step a ip io) w = Raise TypeError
  ∧ count is_raise_alert (emitted (host_step a ip io) w) = 0%nat.
Proof.
  intros H Hon Hp Hc Hh. split.
  - unfold outcome. unfold_py. rewrite Hp, Hc, Hh. py_rw H. rewrite Hon. by py_rw H.
  - unfold emitted, exec. unfold_py. rewrite Hp, Hc, Hh. py_rw H. rewrite Hon.
    py_rw H. by rewrite <- ?app_assoc, drop_app_length.
Qed.

(** Where the time of change is naive, the alert block asks for the alert
    mail exactly when the record is Offline, not alerted, and the threshold
    has elapsed. *)
Lemma raise_alert_iff_naive a ip io w s :
  status w !! ip = Some s → online s = Some false → aware (changed s) = false →
  (∃ secs, In (ESend (RaiseAlert ip secs)) (emitted (handle_alerts a ip false io) w))
  ↔ raise_due a (io_clock_alert io) s.
Proof.
  intros H Hoff Hnaive. unfold raise_due, emitted, exec. unfold_py.
  unfold total_seconds_ge. py_rw H. rewrite Hnaive. py_simpl.
  destruct (a * 1000000 <=? io_clock_alert io - micros (changed s)) eqn:Hdue;
    [apply Z.leb_le in Hdue|apply Z.leb_gt in Hdue];
    destruct (alerted s) eqn:Hal; py_simpl; rewrite ?drop_all.
  2: destruct (io_send io) as [[]|e]; [|destruct (is_Exception e)]; py_simpl;
     rewrite <- ?app_assoc, drop_app_length.
  all: split; [intros [secs Hin]|intros (_ & Hf & Hd)]; simpl in *;
    try contradiction; try discriminate; try lia; eauto 10.
Qed.

(** C2. The end-to-end scenario of the design (interval 1 s, threshold 3 s,
    first host online twice and then offline): the third visit of the first
    host raises [TypeError], the [try] of [main] logs it and the process
    leaves with status 2.  Five pings have been made, no mail was ever
    requested, and the outage never reaches its alert. *)
Theorem outage_after_online_stops_monitor :
  let r := run_main [true; true; false; false; false; false; true] 7 in
  fst r = Raise (SystemExit 2)
  ∧ exit_status (fst r) = Some 2
  ∧ count is_ping (trace (snd r)) = 5%nat
  ∧ List.filter is_send (trace (snd r)) = []
  ∧ last (trace (snd r)) = Some (ELog ERROR (MsgUnhandled TypeError)).
Proof. vm_compute. repeat split. Qed.

(** ** History rows *)

(** A visit that finds the state unchanged still asks for one history row. *)
Lemma unchanged_visit_asks_row a ip io w s up :
  status w !! ip = Some s → online s = Some up → io_ping io = Ret up →
  count is_history (emitted (host_step a ip io) w) = 1%nat.
Proof.
  intros H Hon Hp. unfold emitted, exec. unfold_py. rewrite Hp. py_rw H.
  rewrite Hon. rewrite eqb_reflx. py_rw H.
  repeat first [progress py_rw H | py_case];
    rewrite <- ?app_assoc, drop_app_length; reflexivity.
Qed.

(** C4. Three cycles with the first host steadily online: one history row
    per visit is requested for it, three in all, although no transition is
    logged.  In the run where the host recovers in the fifth cycle, the one
    logged transition gives two rows, so six visits give seven rows. *)
Theorem history_row_on_every_visit :
  let steady := run_main [true; true; true] 3 in
  let recovering := run_main [false; false; false; false; true; true] 6 in
  count (is_row_of "10.0.0.1") (trace (snd steady)) = 3%nat
  ∧ count is_warning (trace (snd steady)) = 0%nat
  ∧ count (is_row_of "10.0.0.1") (trace (snd recovering)) = 7%nat
  ∧ count is_warning (trace (snd recovering)) = 1%nat.
Proof. vm_compute. repeat split. Qed.

(** ** Errors at the loop boundary *)

(** Once a cycle has raised, more turns of the loop change nothing. *)
Lemma while_true_raise_more a ips ora c n k w e w' :
  while_true a ips ora c n w = (Raise e, w') →
  while_true a ips ora c (n + k) w = (Raise e, w').
Proof.
  revert c w. induction n as [|n IH]; intros c w H; simpl in *.
  - discriminate H.
  - unfold bind in *. destruct (cycle a ips ora c w) as [[[]|e0] w1]; [by apply IH|exact H].
Qed.

(** C5 (as amended). An exception raised inside a cycle and not caught by
    the block that produced it reaches the [try] of [main]: it is logged as
    unhandled and the process leaves with status 2; no further cycle runs,
    however long the loop would have gone on. *)
Theorem unhandled_exception_exits_with_2 a ips ora n w e w' :
  while_true a ips ora 0 n w = (Raise e, w') → is_Exception e = true →
  monitor a ips ora n w = (Raise (SystemExit 2), emit (ELog ERROR (MsgUnhandled e)) w')
  ∧ exit_status (outcome (monitor a ips ora n) w) = Some 2
  ∧ ∀ k, monitor a ips ora (n + k) w = monitor a ips ora n w.
Proof.
  intros H He.
  assert (Hm : ∀ k, monitor a ips ora (n + k) w
               = (Raise (SystemExit 2), emit (ELog ERROR (MsgUnhandled e)) w')).
  { intros k. unfold monitor. rewrite (while_true_raise_more _ _ _ _ _ k _ _ _ H).
    destruct e; try discriminate He; reflexivity. }
  pose proof (Hm 0%nat) as H0. rewrite Nat.add_0_r in H0.
  repeat split.
  - exact H0.
  - unfold outcome. by rewrite H0.
  - intros k. by rewrite Hm, H0.
Qed.

(** C5 (as stated) fails: the history database refuses a row in the first
    cycle; the error is logged, the process leaves with status 2 and the
    host is never pinged a second time, although three cycles were due. *)
Lemma history_failure_ends_monitor :
  let ips := ["10.0.0.1"%string] in
  outcome (cycle spec_args ips oracle_db_locked 0) one_host
    = Raise (OtherError "sqlite3.OperationalError")
  ∧ is_Exception (OtherError "sqlite3.OperationalError") = true
  ∧ exit_status (outcome (monitor spec_args ips oracle_db_locked 3) one_host) = Some 2
  ∧ count is_ping (trace (exec (monitor spec_args ips oracle_db_locked 3) one_host)) = 1%nat.
Proof. vm_compute. repeat split. Qed.

(** Ctrl-C is logged and [main] returns; the exit status is 0. *)
Lemma keyboard_interrupt_returns a ips ora n w w' :
  while_true a ips ora 0 n w = (Raise KeyboardInterrupt, w') →
  monitor a ips ora n w = (Ret Returned, emit (ELog INFO MsgCtrlC) w')
  ∧ exit_status (outcome (monitor a ips ora n) w) = Some 0.
Proof. intros H. unfold outcome, monitor. rewrite H. by split. Qed.

(** ** Start-up failures *)

Lemma raise_exits_nonzero {A} (e : exn) :
  ordinary (@Raise A e) → exits_nonzero (Raise e).
Proof.
  intros He. destruct e; try (by exists 1); try (by exists 130).
  by destruct (He code).
Qed.

Lemma get_email_cfg_missing py_int environ k :
  In k keys → environ !! k = None →
  ∃ missing, get_email_cfg py_int environ = Raise (EnvironmentError missing).
Proof.
  intros Hk Hnone. unfold get_email_cfg.
  match goal with |- context [existsb ?f ?l] => assert (E : existsb f l = true) end.
  { apply existsb_exists. exists (k, environ !! k). split.
    - apply in_map_iff. eauto.
    - simpl. by rewrite Hnone. }
  rewrite E. eauto.
Qed.

Ltac only_startup :=
  cbn [trace emit boot app];
  repeat (apply List.Forall_cons; [auto|]); apply List.Forall_nil.

(** C9. If the host file yields no host, or one of the five mail settings
    is absent from the environment, [main] ends with a non-zero exit status
    before the loop: the trace holds nothing but the first [init_db] and the
    error message, so no host is pinged and the dashboard is not started, and
    no record is created. *)
Theorem bad_configuration_never_probes py_int a start environ ora n :
  ordinary (io_init_db start) → ordinary (io_basicConfig start) →
  ordinary (io_ip_file start) →
  load_ips (io_ip_file start) = Ret [] ∨ (∃ k, In k keys ∧ environ !! k = None) →
  exits_nonzero (outcome (main py_int a start environ ora n) boot)
  ∧ Forall (λ e, e = EInitDb ∨ e = ELog ERROR MsgNoIps)
      (trace (exec (main py_int a start environ ora n) boot))
  ∧ status (exec (main py_int a start environ ora n) boot) = ∅.
Proof.
  intros Hdb Hlog Hfile Hbad. unfold outcome, exec, main, bind, call, lift_result.
  destruct (io_init_db start) as [[]|e1] eqn:E1; simpl.
  2: { split; [by eapply raise_exits_nonzero|]. split; [|done]. only_startup. }
  destruct (io_basicConfig start) as [[]|e2] eqn:E2; simpl.
  2: { split; [by eapply raise_exits_nonzero|]. split; [|done]. only_startup. }
  destruct (load_ips (io_ip_file start)) as [ips|e3] eqn:E3; simpl.
  2: { split; [eapply raise_exits_nonzero|]. 
       - unfold load_ips in E3. destruct (io_ip_file start); [discriminate|]. 
         injection E3 as ->. exact Hfile.
       - split; [|done]. only_startup. }
  destruct ips as [|ip rest].
  - simpl. split; [by exists 1|]. split; [|done]. only_startup.
  - destruct Hbad as [Hbad|(k & Hk & Hnone)]; [discriminate Hbad|].
    destruct (get_email_cfg_missing py_int environ k Hk Hnone) as [missing ->].
    simpl. split; [by exists 1|]. split; [|done]. only_startup.
Qed.

(** ** The dashboard's view *)

(** After a visit that returned, the entry of [controller_status] for the
    host is the loop's own record, not a copy: the dashboard reads whatever
    the record holds at the moment of the read. *)
Lemma dashboard_reads_live_record a ip io w :
  outcome (host_step a ip io) w = Ret tt →
  controller_status (exec (host_step a ip io) w) !! ip = Some (Live ip)
  ∧ dashboard_view (exec (host_step a ip io) w) ip
    = status (exec (host_step a ip io) w) !! ip.
Proof.
  intros Hret.
  assert (Hcs : controller_status (exec (host_step a ip io) w) !! ip = Some (Live ip)).
  { revert Hret. unfold outcome, exec. unfold_py.
    destruct (status w !! ip) as [s|] eqn:H;
      repeat first [progress py_simpl | rewrite lookup_insert_eq | rewrite H | py_case];
      try discriminate; by intros _. }
  split; [exact Hcs|]. unfold dashboard_view. by rewrite Hcs.
Qed.

(** ** Instances *)

Lemma alerted_only_while_offline_witness :
  world_inv overdue_host
  ∧ world_inv (exec (host_step 3 "10.0.0.1" (calm false (seconds 3))) overdue_host).
Proof.
  assert (H : world_inv overdue_host).
  { intros ip s Hs. simpl in Hs. apply lookup_singleton_Some in Hs as [_ <-].
    intros Ha. reflexivity. }
  split; [exact H|].
  apply (alerted_only_while_offline 3 "10.0.0.1" false (calm false (seconds 3))
           overdue_host H).
Defined.

Lemma changed_only_on_transition_witness :
  ∃ s', status (exec (host_step 3 "10.0.0.1" (calm true (seconds 1))) steady_host)
          !! "10.0.0.1"%string = Some s'
        ∧ changed s' = utcnow 0.
Proof.
  destruct (changed_only_on_transition 3 "10.0.0.1" (calm true (seconds 1)) steady_host
              {| online := Some true; changed := utcnow 0; alerted := false |})
    as (s' & E & Hsame & _).
  - reflexivity.
  - exists s'. split; [exact E|]. apply (Hsame true); reflexivity.
Defined.

Lemma first_observation_is_silent_witness :
  status (exec (observe "10.0.0.1" false (calm false (seconds 1))) one_host)
    !! "10.0.0.1"%string
  = Some {| online := Some false; changed := utcnow (seconds 1); alerted := false |}
  ∧ trace (exec (observe "10.0.0.1" false (calm false (seconds 1))) one_host) = [].
Proof.
  destruct (first_observation_is_silent 3 "10.0.0.1" false (calm false (seconds 1))
              one_host (initial_entry 0))
    as (_ & E & Ht & _); try reflexivity.
  split; [exact E|exact Ht].
Defined.

Lemma failed_alert_is_retried_witness :
  ∃ secs, In (ESend (RaiseAlert "10.0.0.1" secs))
            (emitted (host_step 3 "10.0.0.1" (smtp_down (seconds 4)))
               (exec (host_step 3 "10.0.0.1" (smtp_down (seconds 3))) overdue_host)).
Proof.
  destruct (failed_alert_is_retried 3 "10.0.0.1" (smtp_down (seconds 3)) overdue_host
              {| online := Some false; changed := utcnow 0; alerted := false |}
              3 (OtherError "smtplib.SMTPException"))
    as (_ & s1 & Hs1 & Hal & Hnext).
  - reflexivity.
  - vm_compute. auto.
  - reflexivity.
  - reflexivity.
  - apply (Hnext (smtp_down (seconds 4)) _ Hs1); try reflexivity.
    vm_compute in Hs1. injection Hs1 as <-. unfold raise_due. vm_compute.
    repeat split; discriminate.
Defined.

Lemma unhandled_exception_exits_with_2_witness :
  exit_status (outcome (monitor spec_args ["10.0.0.1"%string] oracle_db_locked 1) one_host)
  = Some 2
  ∧ monitor spec_args ["10.0.0.1"%string] oracle_db_locked 3 one_host
    = monitor spec_args ["10.0.0.1"%string] oracle_db_locked 1 one_host.
Proof.
  destruct (unhandled_exception_exits_with_2 spec_args ["10.0.0.1"%string]
              oracle_db_locked 1 one_host (OtherError "sqlite3.OperationalError")
              (exec (while_true spec_args ["10.0.0.1"%string] oracle_db_locked 0 1)
                 one_host))
    as (_ & Hexit & Hmore).
  - vm_compute. reflexivity.
  - reflexivity.
  - split; [exact Hexit|exact (Hmore 2%nat)].
Defined.

Lemma bad_configuration_never_probes_witness :
  exits_nonzero
    (outcome (main int_465 spec_args (fair_start comments_only) full_environ
                (oracle_of []) 3) boot)
  ∧ exits_nonzero
      (outcome (main int_465 spec_args (fair_start hosts_file) environ_without_pass
                  (oracle_of []) 3) boot).
Proof.
  assert (Hord : ∀ A (x : A), ordinary (Ret x)) by (intros A x code; discriminate).
  split.
  - apply (bad_configuration_never_probes int_465 spec_args (fair_start comments_only)
             full_environ (oracle_of []) 3); try apply Hord.
    left. reflexivity.
  - apply (bad_configuration_never_probes int_465 spec_args (fair_start hosts_file)
             environ_without_pass (oracle_of []) 3); try apply Hord.
    right. exists "EMAIL_PASS"%string. split; [simpl; auto 10|reflexivity].
Defined.

(** * More of the code *)

(** ** Reading the host file *)

Lemma string_app_cons (c : ascii) (s t : string) :
  (String c s +:+ t)%string = String c (s +:+ t).
Proof. reflexivity. Qed.

Lemma string_app_nil_l (t : string) : ("" +:+ t)%string = t.
Proof. reflexivity. Qed.

Lemma string_app_assoc (a b c : string) :
  ((a +:+ b) +:+ c)%string = (a +:+ (b +:+ c))%string.
Proof.
  induction a as [|x a IH]; [done|]. by rewrite !string_app_cons, IH.
Qed.

Lemma rev_app_append (s t : string) :
  String.rev_app s t = (String.rev s +:+ t)%string.
Proof.
  unfold String.rev. revert t. induction s as [|c s IH]; intros t; [done|].
  cbn [String.rev_app]. rewrite IH, (IH (String c "")), string_app_assoc. done.
Qed.

Lemma rev_cons (c : ascii) (s : string) :
  String.rev (String c s) = (String.rev s +:+ String c "")%string.
Proof. unfold String.rev at 1. cbn [String.rev_app]. apply rev_app_append. Qed.

Lemma rev_snoc (s : string) (c : ascii) :
  String.rev (s +:+ String c "") = String c (String.rev s).
Proof.
  induction s as [|x s IH]; [done|].
  by rewrite string_app_cons, !rev_cons, IH.
Qed.

Lemma lstrip_clean (s : string) : lstrip s = EmptyString ∨ starts_clean (lstrip s).
Proof.
  induction s as [|c s IH]; simpl; [by left|].
  destruct (py_isspace c) eqn:E; [exact IH|]. right. by exists c, s.
Qed.

Lemma lstrip_snoc (s : string) (c : ascii) :
  py_isspace c = false → ∃ front, lstrip (s +:+ String c "") = (front +:+ String c "")%string.
Proof.
  intros Hc. induction s as [|x s IH].
  - rewrite string_app_nil_l. cbn [lstrip]. rewrite Hc. by exists EmptyString.
  - rewrite string_app_cons. cbn [lstrip].
    destruct (py_isspace x); [exact IH|]. by exists (String x s).
Qed.

Lemma rstrip_keeps_start (s : string) : starts_clean s → starts_clean (rstrip s).
Proof.
  intros (c & rest & -> & Hc). unfold rstrip. rewrite rev_cons.
  destruct (lstrip_snoc (String.rev rest) c Hc) as [front ->].
  rewrite rev_snoc. by exists c, (String.rev front).
Qed.

Lemma rstrip_clean (s : string) : rstrip s = EmptyString ∨ ends_clean (rstrip s).
Proof.
  unfold rstrip. destruct (lstrip_clean (String.rev s)) as [->|(c & rest & -> & Hc)].
  - by left.
  - right. rewrite rev_cons. by exists c, (String.rev rest).
Qed.

Lemma strip_clean (s : string) :
  strip s = EmptyString ∨ (starts_clean (strip s) ∧ ends_clean (strip s)).
Proof.
  unfold strip. destruct (lstrip_clean s) as [->|Hstart]; [by left|].
  pose proof (rstrip_keeps_start _ Hstart) as Hs.
  destruct (rstrip_clean (lstrip s)) as [E|He]; [|by right].
  destruct Hs as (c & rest & E' & _). rewrite E in E'. discriminate.
Qed.

Lemma load_ips_member (lines hosts : list string) (h : string) :
  load_ips (Ret lines) = Ret hosts →
  In h hosts ↔
  ∃ line, In line lines ∧ h = strip line ∧ h ≠ EmptyString
          ∧ String.prefix "#" line = false.
Proof.
  intros [= <-]. rewrite in_map_iff. split.
  - intros (line & <- & [Hin Hkeep]%filter_In).
    apply andb_true_iff in Hkeep as [Ht Hp]. apply negb_true_iff in Hp.
    exists line. repeat split; try done. intros E. by rewrite E in Ht.
  - intros (line & Hin & -> & Hne & Hp). exists line. split; [done|].
    apply filter_In. split; [done|]. rewrite Hp.
    destruct (strip line); [done|reflexivity].
Qed.

(** X1. Every host name that [load_ips] returns is non-empty and begins and
    ends with a character that is not white space (for a file of code points
    below 256, U+0085 and U+00A0 included in the white space). *)
Theorem load_ips_hosts_are_clean (file : result (list string)) hosts h :
  load_ips file = Ret hosts → In h hosts → starts_clean h ∧ ends_clean h.
Proof.
  destruct file as [lines|e]; [|discriminate]. intros Hl Hin.
  apply (load_ips_member lines hosts h Hl) in Hin as (line & _ & -> & Hne & _).
  by destruct (strip_clean line).
Qed.

Lemma load_ips_hosts_are_clean_witness :
  load_ips (Ret nbsp_file) = Ret ["10.0.0.1"%string]
  ∧ starts_clean "10.0.0.1" ∧ ends_clean "10.0.0.1".
Proof.
  split; [reflexivity|].
  apply (load_ips_hosts_are_clean (Ret nbsp_file) ["10.0.0.1"%string]).
  - reflexivity.
  - simpl. auto.
Defined.

(** X2. A line that begins with [#], or that holds white space only, can be
    added to the host file anywhere without changing what [load_ips]
    returns (for a file of code points below 256, U+0085 and U+00A0
    included in the white space). *)
Theorem load_ips_ignores_comments_and_blanks (before after : list string) line :
  String.prefix "#" line = true ∨ strip line = EmptyString →
  load_ips (Ret (before ++ line :: after)) = load_ips (Ret (before ++ after)).
Proof.
  intros Hskip. unfold load_ips. f_equal.
  rewrite !List.filter_app. simpl.
  replace (truthy (strip line) && negb (String.prefix "#" line)) with false; [done|].
  destruct Hskip as [->| ->]; simpl; [by rewrite andb_false_r|done].
Qed.

Lemma load_ips_ignores_comments_and_blanks_witness :
  load_ips (Ret hosts_file)
  = load_ips (Ret ["10.0.0.1" +:+ newline; newline; "  10.0.0.2  " +:+ newline])
  ∧ load_ips (Ret nbsp_file) = load_ips (Ret [nbsp +:+ "10.0.0.1" +:+ nbsp +:+ newline]).
Proof.
  split.
  - exact (load_ips_ignores_comments_and_blanks [] _ ("# controllers" +:+ newline)
             (or_introl eq_refl)).
  - exact (load_ips_ignores_comments_and_blanks
             [nbsp +:+ "10.0.0.1" +:+ nbsp +:+ newline] [] (nbsp +:+ newline)
             (or_intror eq_refl)).
Defined.

(** X3. Only a [#] in the first column makes a comment: a line that has
    white space before its [#] is returned as a host name, the stripped line
    with its [#] (for a file of code points below 256, U+0085 and U+00A0
    included in the white space). *)
Theorem load_ips_keeps_indented_comment (lines : list string) c rest :
  In (String c rest) lines → py_isspace c = true →
  String.prefix "#" (strip (String c rest)) = true →
  ∃ hosts, load_ips (Ret lines) = Ret hosts ∧ In (strip (String c rest)) hosts.
Proof.
  intros Hin Hc Hp. eexists. split; [reflexivity|].
  apply in_map, filter_In. split; [exact Hin|].
  apply andb_true_iff. split.
  - destruct (strip (String c rest)); [discriminate Hp|reflexivity].
  - apply negb_true_iff. cbn [String.prefix].
    destruct (ascii_dec "#" c) as [<-|_]; [|reflexivity].
    vm_compute in Hc. discriminate Hc.
Qed.

Lemma load_ips_keeps_indented_comment_witness :
  ∃ hosts, load_ips (Ret [nbsp +:+ "#x" +:+ nbsp +:+ newline; "10.0.0.1" +:+ newline])
           = Ret hosts
           ∧ In "#x"%string hosts.
Proof.
  apply (load_ips_keeps_indented_comment
           [nbsp +:+ "#x" +:+ nbsp +:+ newline; "10.0.0.1" +:+ newline]
           (ascii_of_nat 160) ("#x" +:+ nbsp +:+ newline)).
  - simpl. auto.
  - reflexivity.
  - reflexivity.
Defined.

(** ** Mail settings *)

Lemma get_email_cfg_cases py_int (environ : gmap string string) :
  match environ !! "EMAIL_HOST"%string, environ !! "EMAIL_PORT"%string,
        environ !! "EMAIL_USER"%string, environ !! "EMAIL_PASS"%string,
        environ !! "EMAIL_TO"%string with
  | Some h, Some p, Some u, Some pw, Some to =>
      missing_keys environ = []
      ∧ get_email_cfg py_int environ =
          match py_int p with
          | Some n =>
              Ret [("EMAIL_HOST", CfgStr h); ("EMAIL_PORT", CfgInt n);
                   ("EMAIL_USER", CfgStr u); ("EMAIL_PASS", CfgStr pw);
                   ("EMAIL_TO", CfgStr to)]%string
          | None => Raise ValueError
          end
  | _, _, _, _, _ =>
      missing_keys environ ≠ []
      ∧ get_email_cfg py_int environ = Raise (EnvironmentError (missing_keys environ))
  end.
Proof.
  unfold get_email_cfg, missing_keys. cbn [keys map existsb List.filter fst snd].
  destruct (environ !! "EMAIL_HOST"%string), (environ !! "EMAIL_PORT"%string),
    (environ !! "EMAIL_USER"%string), (environ !! "EMAIL_PASS"%string),
    (environ !! "EMAIL_TO"%string); cbn; by split.
Qed.

(** X4. [get_email_cfg] raises [EnvironmentError] exactly when one of the
    five settings is unset, whatever [EMAIL_PORT] holds, and the settings it
    names are all the unset ones, in the order HOST, PORT, USER, PASS, TO. *)
Theorem get_email_cfg_lists_missing py_int (environ : gmap string string) m :
  get_email_cfg py_int environ = Raise (EnvironmentError m)
  ↔ m = missing_keys environ ∧ m ≠ [].
Proof.
  pose proof (get_email_cfg_cases py_int environ) as H.
  destruct (environ !! "EMAIL_HOST"%string), (environ !! "EMAIL_PORT"%string),
    (environ !! "EMAIL_USER"%string), (environ !! "EMAIL_PASS"%string),
    (environ !! "EMAIL_TO"%string); destruct H as [Hm ->].
  1: { rewrite Hm. split; [by destruct (py_int _)|]. by intros [-> ?]. }
  all: split; [by intros [= <-]|by intros [-> _]].
Qed.

(** X5. When the five settings are set, also to an empty string, the result
    depends on [int(EMAIL_PORT)] alone: [ValueError] if it fails, otherwise
    the five pairs in the order of [keys], the port as an integer and the
    other values as found. *)
Theorem get_email_cfg_all_set py_int (environ : gmap string string) h p u pw to :
  environ !! "EMAIL_HOST"%string = Some h → environ !! "EMAIL_PORT"%string = Some p →
  environ !! "EMAIL_USER"%string = Some u → environ !! "EMAIL_PASS"%string = Some pw →
  environ !! "EMAIL_TO"%string = Some to →
  get_email_cfg py_int environ =
    match py_int p with
    | Some n =>
        Ret [("EMAIL_HOST", CfgStr h); ("EMAIL_PORT", CfgInt n);
             ("EMAIL_USER", CfgStr u); ("EMAIL_PASS", CfgStr pw);
             ("EMAIL_TO", CfgStr to)]%string
    | None => Raise ValueError
    end.
Proof.
  intros Hh Hp Hu Hpw Hto. pose proof (get_email_cfg_cases py_int environ) as H.
  rewrite Hh, Hp, Hu, Hpw, Hto in H. by destruct H.
Qed.

Lemma get_email_cfg_all_set_witness :
  get_email_cfg int_465 full_environ =
    Ret [("EMAIL_HOST", CfgStr "smtp.example.org"); ("EMAIL_PORT", CfgInt 465);
         ("EMAIL_USER", CfgStr "monitor@example.org"); ("EMAIL_PASS", CfgStr "secret");
         ("EMAIL_TO", CfgStr "ops@example.org")]%string
  ∧ get_email_cfg (λ _, None) (<["EMAIL_PASS"%string := ""%string]> full_environ)
    = Raise ValueError.
Proof.
  split.
  - apply (get_email_cfg_all_set int_465 full_environ "smtp.example.org" "465"
             "monitor@example.org" "secret" "ops@example.org"); reflexivity.
  - apply (get_email_cfg_all_set (λ _, None)
             (<["EMAIL_PASS"%string := ""%string]> full_environ) "smtp.example.org"
             "465" "monitor@example.org" "" "ops@example.org"); reflexivity.
Defined.

(** ** Sending a mail *)

Lemma py_split_cons sep s : ∃ piece pieces, py_split sep s = piece :: pieces.
Proof.
  induction s as [|c s (piece & pieces & IH)]; simpl; [by eauto|].
  destruct (Ascii.eqb c sep); [by eauto|]. rewrite IH. eauto.
Qed.

Lemma concat_cons_cons sep (x y : string) l :
  String.concat sep (x :: y :: l) = (x +:+ sep +:+ String.concat sep (y :: l))%string.
Proof. reflexivity. Qed.

(** X6. Splitting a string at a separator and joining the pieces with it
    gives the string back; there is one piece more than there are
    separators, so at least one, and no piece holds a separator. *)
Theorem py_split_roundtrip sep s :
  String.concat (String sep EmptyString) (py_split sep s) = s
  ∧ length (py_split sep s) = S (occurrences sep s)
  ∧ Forall (λ piece, contains sep piece = false) (py_split sep s).
Proof.
  induction s as [|c s (IHj & IHl & IHf)]; [by repeat constructor|].
  destruct (py_split_cons sep s) as (piece & pieces & E).
  cbn [py_split occurrences]. rewrite E in *.
  destruct (Ascii.eqb_spec c sep) as [->|Hne]; repeat split.
  - by rewrite concat_cons_cons, IHj.
  - cbn [length] in *. lia.
  - by constructor.
  - destruct pieces as [|piece' pieces]; [by rewrite <- IHj|].
    rewrite concat_cons_cons in *. by rewrite string_app_cons, IHj.
  - cbn [length] in *. lia.
  - inversion IHf as [|? ? Hp Hps]; subst. constructor; [|done].
    cbn [contains]. rewrite Hp. by destruct (Ascii.eqb_spec c sep).
Qed.

(** X7. On the dict that [get_email_cfg] returns, none of the look-ups of
    [send_email] fails: the server is addressed with the host and the
    integer port, the login and the sender are [EMAIL_USER], and the mail
    goes to the pieces of [EMAIL_TO] between its commas. *)
Theorem send_email_finds_its_settings py_int (environ : gmap string string) cfg subj body :
  get_email_cfg py_int environ = Ret cfg →
  ∃ h p n u pw to,
    environ !! "EMAIL_HOST"%string = Some h ∧ environ !! "EMAIL_PORT"%string = Some p
    ∧ py_int p = Some n
    ∧ environ !! "EMAIL_USER"%string = Some u ∧ environ !! "EMAIL_PASS"%string = Some pw
    ∧ environ !! "EMAIL_TO"%string = Some to
    ∧ send_email_args subj body cfg =
        Ret {| smtp_host := CfgStr h; smtp_port := CfgInt n; login_user := CfgStr u;
               login_pass := CfgStr pw; mail_from := CfgStr u;
               rcpt_to := py_split "," to;
               mail_data := ("Subject: " +:+ subj +:+ newline +:+ newline +:+ body)%string |}.
Proof.
  intros Hcfg. pose proof (get_email_cfg_cases py_int environ) as H.
  destruct (environ !! "EMAIL_HOST"%string) as [h|], (environ !! "EMAIL_PORT"%string) as [p|],
    (environ !! "EMAIL_USER"%string) as [u|], (environ !! "EMAIL_PASS"%string) as [pw|],
    (environ !! "EMAIL_TO"%string) as [to|]; destruct H as [_ H];
    rewrite H in Hcfg; try discriminate Hcfg.
  destruct (py_int p) as [n|] eqn:Hn; [|discriminate Hcfg].
  injection Hcfg as <-. exists h, p, n, u, pw, to. by repeat split.
Qed.

Lemma send_email_finds_its_settings_witness :
  ∃ cfg session,
    get_email_cfg int_465
      (<["EMAIL_TO"%string := "ops@example.org,boss@example.org"%string]> full_environ)
    = Ret cfg
    ∧ send_email_args "[ALERT] Controller 10.0.0.1 offline" "down" cfg = Ret session
    ∧ rcpt_to session = ["ops@example.org"; "boss@example.org"]%string.
Proof.
  eexists. 
  assert (Hcfg : get_email_cfg int_465
                   (<["EMAIL_TO"%string := "ops@example.org,boss@example.org"%string]>
                      full_environ)
                 = Ret [("EMAIL_HOST", CfgStr "smtp.example.org"); ("EMAIL_PORT", CfgInt 465);
                        ("EMAIL_USER", CfgStr "monitor@example.org");
                        ("EMAIL_PASS", CfgStr "secret");
                        ("EMAIL_TO", CfgStr "ops@example.org,boss@example.org")]%string)
    by (vm_compute; reflexivity).
  destruct (send_email_finds_its_settings int_465 _ _
              "[ALERT] Controller 10.0.0.1 offline" "down" Hcfg)
    as (h & p & n & u & pw & to & _ & _ & _ & _ & _ & Hto & Hs).
  eexists. split; [exact Hcfg|]. split; [exact Hs|].
  vm_compute in Hto. injection Hto as <-. reflexivity.
Defined.

(** ** The initial records *)

Lemma build_status_dom ips i clock (m : gmap string entry) :
  dom (build_status ips i clock m) = list_to_set ips ∪ dom m.
Proof.
  revert i m. induction ips as [|ip rest IH]; intros i m; simpl.
  - by rewrite (left_id_L ∅ (∪)).
  - rewrite IH, dom_insert_L, (assoc_L (∪)). f_equal. apply (comm_L (∪)).
Qed.

Lemma build_status_records ips i clock (m : gmap string entry) ip s :
  build_status ips i clock m !! ip = Some s →
  m !! ip = Some s ∨ ∃ j, (i ≤ j < i + length ips)%nat ∧ s = initial_entry (clock j).
Proof.
  revert i m. induction ips as [|ip0 rest IH]; intros i m; simpl; [by left|].
  intros [H|(j & Hj & ->)]%IH.
  - destruct (decide (ip0 = ip)) as [->|Hne].
    + rewrite lookup_insert_eq in H. injection H as <-. right. exists i. split; [lia|done].
    + rewrite lookup_insert_ne in H by done. by left.
  - right. exists j. split; [lia|done].
Qed.

(** X8. The dict built at start-up has one record for each distinct host of
    the list and no other; every record is in state Unknown, not alerted, and
    carries an aware time stamp read while the dict was built. *)
Theorem build_status_one_record_per_host ips clock :
  dom (build_status ips 0 clock ∅) = list_to_set ips
  ∧ ∀ ip s, build_status ips 0 clock ∅ !! ip = Some s →
      ∃ j, (j < length ips)%nat ∧ s = initial_entry (clock j).
Proof.
  split.
  - by rewrite build_status_dom, dom_empty_L, (right_id_L ∅ (∪)).
  - intros ip s [H|(j & Hj & ->)]%build_status_records.
    + by rewrite lookup_empty in H.
    + exists j. split; [lia|done].
Qed.

(** ** What a visit leaves alone *)

Lemma host_step_other_published a ip ip' io w :
  ip ≠ ip' →
  controller_status (exec (host_step a ip io) w) !! ip' = controller_status w !! ip'.
Proof.
  intros Hne. unfold exec. unfold_py.
  repeat first [progress py_simpl | rewrite lookup_insert_ne by done | py_case];
    reflexivity.
Qed.

(** X9. The visit of one host changes neither the record of another host
    nor what is published for it, whether the visit returns or raises. *)
Theorem visit_leaves_other_hosts_alone a ip ip' io w :
  ip ≠ ip' →
  status (exec (host_step a ip io) w) !! ip' = status w !! ip'
  ∧ controller_status (exec (host_step a ip io) w) !! ip' = controller_status w !! ip'.
Proof.
  intros Hne. split; [by apply host_step_other|by apply host_step_other_published].
Qed.

Lemma visit_leaves_other_hosts_alone_witness :
  status (exec (host_step 3 "10.0.0.1" (calm false (seconds 5))) two_hosts)
    !! "10.0.0.1"%string
  = Some {| online := Some false; changed := utcnow (seconds 5); alerted := false |}
  ∧ status (exec (host_step 3 "10.0.0.1" (calm false (seconds 5))) two_hosts)
      !! "10.0.0.2"%string
    = Some (initial_entry 0)
  ∧ controller_status (exec (host_step 3 "10.0.0.1" (calm false (seconds 5))) two_hosts)
      !! "10.0.0.2"%string
    = None.
Proof.
  destruct (visit_leaves_other_hosts_alone 3 "10.0.0.1" "10.0.0.2"
              (calm false (seconds 5)) two_hosts) as [Hs Hc].
  - discriminate.
  - split; [reflexivity|]. rewrite Hs, Hc. split; reflexivity.
Defined.

(** ** Properties kept by the loop *)

Section Kept.

Context (P : world → Prop) (Q : string → host_io → Prop) (a : args).
Hypothesis P_emit : ∀ e w, is_send e = false → P w → P (emit e w).
Hypothesis P_step : ∀ ip io, Q ip io → preserves P (host_step (alert_after a) ip io).

Lemma for_ips_keeps ips i io :
  (∀ j ip, ips !! j = Some ip → Q ip (io (i + j)%nat)) →
  preserves P (for_ips a ips i io).
Proof.
  revert i. induction ips as [|ip rest IH]; intros i HQ; simpl.
  - apply preserves_ret.
  - apply preserves_bind.
    + apply P_step. specialize (HQ 0%nat ip eq_refl). by rewrite Nat.add_0_r in HQ.
    + intros _. apply IH. intros j ip' Hj.
      specialize (HQ (S j) ip' Hj). by rewrite Nat.add_succ_r in HQ.
Qed.

Lemma sleep_keeps secs r : preserves P (sleep secs r).
Proof.
  unfold sleep. destruct (secs <? 0); intros w Hw; [done|]. by apply P_emit.
Qed.

Lemma cycle_keeps ips ora c :
  (∀ j ip, ips !! j = Some ip → Q ip (host_in ora c j)) →
  preserves P (cycle a ips ora c).
Proof.
  intros HQ. apply preserves_bind; [by apply for_ips_keeps|intros _; apply sleep_keeps].
Qed.

Lemma while_true_keeps ips ora c n :
  (∀ c' j ip, ips !! j = Some ip → Q ip (host_in ora c' j)) →
  preserves P (while_true a ips ora c n).
Proof.
  intros HQ. revert c. induction n as [|n IH]; intros c; simpl.
  - apply preserves_ret.
  - apply preserves_bind; [apply cycle_keeps, HQ|intros _; apply IH].
Qed.

Lemma monitor_keeps ips ora n :
  (∀ c' j ip, ips !! j = Some ip → Q ip (host_in ora c' j)) →
  preserves P (monitor a ips ora n).
Proof.
  intros HQ w Hw. pose proof (while_true_keeps ips ora 0%nat n HQ w Hw) as Hr.
  unfold exec, monitor in *.
  destruct (while_true a ips ora 0%nat n w) as [[[]|e] w']; simpl in *; [done|].
  destruct e; simpl; try by apply P_emit. done.
Qed.

End Kept.

Lemma host_step_dom a ip io w :
  dom (status (exec (host_step a ip io) w)) = dom (status w).
Proof.
  unfold exec. unfold_py.
  repeat first [progress py_simpl | rewrite dom_alter_L | py_case]; reflexivity.
Qed.

(** X10. The loop never creates and never deletes a record: after any
    number of cycles, and also when the loop has ended on an exception, the
    dict holds records for the same hosts as before. *)
Theorem monitor_keeps_host_set a ips ora n w :
  dom (status (exec (monitor a ips ora n) w)) = dom (status w).
Proof.
  apply (monitor_keeps (λ w', dom (status w') = dom (status w)) (λ _ _, True)); try done.
  intros ip io _ w' Hw'. by rewrite host_step_dom.
Qed.

(** ** The order of the probes *)

Lemma outcome_bind {A B} (m : M A) (k : A → M B) w :
  outcome (bind m k) w =
  match outcome m w with
  | Ret x => outcome (k x) (exec m w)
  | Raise e => Raise e
  end.
Proof. unfold exec, outcome, bind. by destruct (m w) as [[x|e] w']. Qed.

Lemma pings_of_app l1 l2 : pings_of (l1 ++ l2) = pings_of l1 ++ pings_of l2.
Proof. apply omap_app. Qed.

Lemma host_step_pings a ip io w :
  pings_of (trace (exec (host_step a ip io) w)) = pings_of (trace w) ++ [ip]
  ∧ count is_sleep (trace (exec (host_step a ip io) w)) = count is_sleep (trace w).
Proof.
  unfold exec. unfold_py. repeat first [progress py_simpl | py_case].
  all: rewrite ?pings_of_app, ?count_app; unfold count; simpl;
    rewrite <- ?app_assoc, ?app_nil_r; split; try reflexivity; lia.
Qed.

Lemma for_ips_pings a ips i io w :
  outcome (for_ips a ips i io) w = Ret tt →
  pings_of (trace (exec (for_ips a ips i io) w)) = pings_of (trace w) ++ ips
  ∧ count is_sleep (trace (exec (for_ips a ips i io) w)) = count is_sleep (trace w).
Proof.
  revert i w. induction ips as [|ip rest IH]; intros i w; simpl.
  - intros _. by rewrite app_nil_r.
  - rewrite outcome_bind, exec_bind.
    destruct (outcome (host_step (alert_after a) ip (io i)) w) as [[]|e]; [|discriminate].
    intros Hrest. destruct (IH _ _ Hrest) as [-> ->].
    destruct (host_step_pings (alert_after a) ip (io i) w) as [-> ->].
    by rewrite <- app_assoc.
Qed.

Lemma sleep_trace secs r w :
  outcome (sleep secs r) w = Ret tt →
  trace (exec (sleep secs r) w) = trace w ++ [ESleep secs].
Proof. unfold sleep, outcome, exec. by destruct (secs <? 0). Qed.

Lemma cycle_pings a ips ora c w :
  outcome (cycle a ips ora c) w = Ret tt →
  pings_of (trace (exec (cycle a ips ora c) w)) = pings_of (trace w) ++ ips
  ∧ count is_sleep (trace (exec (cycle a ips ora c) w)) = S (count is_sleep (trace w)).
Proof.
  unfold cycle. rewrite outcome_bind, exec_bind.
  destruct (outcome (for_ips a ips 0 (host_in ora c)) w) as [[]|e] eqn:E; [|discriminate].
  destruct (for_ips_pings a ips 0%nat (host_in ora c) w E) as [Hp Hs].
  intros Hsleep. rewrite (sleep_trace _ _ _ Hsleep), pings_of_app, count_app, Hp, Hs.
  unfold count at 2. simpl. rewrite app_nil_r. split; [done|lia].
Qed.

Lemma while_true_pings a ips ora c n w :
  outcome (while_true a ips ora c n) w = Ret tt →
  pings_of (trace (exec (while_true a ips ora c n) w))
    = pings_of (trace w) ++ concat (replicate n ips)
  ∧ count is_sleep (trace (exec (while_true a ips ora c n) w))
    = (count is_sleep (trace w) + n)%nat.
Proof.
  revert c w. induction n as [|n IH]; intros c w; simpl.
  - intros _. rewrite app_nil_r. split; [done|]. unfold exec, ret. simpl. lia.
  - rewrite outcome_bind, exec_bind.
    destruct (outcome (cycle a ips ora c) w) as [[]|e] eqn:E; [|discriminate].
    intros Hrest. destruct (IH _ _ Hrest) as [-> ->].
    destruct (cycle_pings a ips ora c w E) as [-> ->].
    rewrite <- app_assoc. split; [done|lia].
Qed.

(** X11. As long as the loop is turning, every completed cycle has pinged
    every host of the list once, in the order of the list, and has slept
    once: after [n] cycles the pings are the list repeated [n] times. *)
Theorem cycles_ping_hosts_in_order a ips ora n w :
  outcome (monitor a ips ora n) w = Ret Looping →
  pings_of (trace (exec (monitor a ips ora n) w))
    = pings_of (trace w) ++ concat (replicate n ips)
  ∧ count is_sleep (trace (exec (monitor a ips ora n) w))
    = (count is_sleep (trace w) + n)%nat.
Proof.
  intros Hloop. pose proof (while_true_pings a ips ora 0%nat n w) as H.
  unfold outcome, exec, monitor in *.
  destruct (while_true a ips ora 0%nat n w) as [[[]|e] w']; simpl in *; [by apply H|].
  destruct e; discriminate Hloop.
Qed.

Lemma cycles_ping_hosts_in_order_witness :
  pings_of (trace (exec (monitor spec_args ["10.0.0.1"; "10.0.0.2"]%string
                           (oracle_of [true; true]) 2) two_hosts))
  = ["10.0.0.1"; "10.0.0.2"; "10.0.0.1"; "10.0.0.2"]%string.
Proof.
  destruct (cycles_ping_hosts_in_order spec_args ["10.0.0.1"; "10.0.0.2"]%string
              (oracle_of [true; true]) 2 two_hosts) as [Hp _].
  - vm_compute. reflexivity.
  - rewrite Hp. reflexivity.
Defined.

(** ** Mails *)

(** X12. One visit asks for at most one mail. *)
Theorem at_most_one_mail_per_visit a ip io w :
  (count is_send (emitted (host_step a ip io) w) ≤ 1)%nat.
Proof.
  destruct (status w !! ip) as [s|] eqn:H; emitted_eval H; unfold count; simpl; lia.
Qed.

Lemma count_zero p l : count p l = 0%nat → Forall (λ e, p e = false) l.
Proof.
  unfold count. induction l as [|e l IH]; simpl; [constructor|].
  destruct (p e) eqn:E; [discriminate|]. intros H. constructor; auto.
Qed.

(** X13. In every run of [main], whatever the hosts, the probes, the clock
    and the collaborators do, every mail that is requested is an alert mail. *)
Theorem every_mail_is_an_alert py_int a start environ ora n :
  Forall (λ e, is_send e = is_raise_alert e)
    (trace (exec (main py_int a start environ ora n) boot)).
Proof.
  destruct (recovery_mail_is_dead py_int a start environ ora n) as [_ Hc].
  apply count_zero in Hc. eapply Forall_impl; [exact Hc|].
  intros [| | | | |[]|] He; simpl in *; congruence.
Qed.

Lemma quot_at_least (a td : Z) : a * 1000000 ≤ td → a ≤ int_total_seconds td.
Proof.
  intros H. unfold int_total_seconds.
  rewrite <- (Z.quot_mul a 1000000) by lia. apply Z.quot_le_mono; lia.
Qed.

(** X14. An alert mail requested during the visit of a host names that host,
    and the number of seconds it reports is at least the threshold. *)
Theorem alert_mail_reports_at_least_threshold a ip io w ip' secs :
  In (ESend (RaiseAlert ip' secs)) (emitted (host_step a ip io) w) →
  ip' = ip ∧ a ≤ secs.
Proof.
  destruct (status w !! ip) as [s|] eqn:H; emitted_eval H; simpl.
  all: intros Hin; repeat (destruct Hin as [Hin|Hin]; try discriminate Hin);
    try contradiction.
  all: injection Hin as <- <-; split; [reflexivity|].
  all: match goal with E : total_seconds_ge _ _ && _ = true |- _ =>
         apply andb_true_iff in E as [E _]; apply Z.leb_le in E end;
    by apply quot_at_least.
Qed.

Lemma alert_mail_reports_at_least_threshold_witness :
  In (ESend (RaiseAlert "10.0.0.1" 4))
     (emitted (host_step 3 "10.0.0.1" (calm false 4999999)) overdue_host)
  ∧ 3 ≤ 4.
Proof.
  assert (Hin : In (ESend (RaiseAlert "10.0.0.1" 4))
                  (emitted (host_step 3 "10.0.0.1" (calm false 4999999)) overdue_host))
    by (vm_compute; auto).
  split; [exact Hin|].
  apply (alert_mail_reports_at_least_threshold 3 "10.0.0.1" (calm false 4999999)
           overdue_host "10.0.0.1" 4 Hin).
Defined.

(** X15. A visit raises only [TypeError], from its own subtraction of time
    stamps, or what [ping], one of the two history calls or [send_email]
    raised; from [send_email] it lets through only what is no [Exception],
    so a failed delivery never ends a visit. *)
Theorem visit_raises_only_what_it_met a ip io w s e :
  status w !! ip = Some s → outcome (host_step a ip io) w = Raise e →
  e = TypeError ∨ io_ping io = Raise e ∨ io_history_change io = Raise e
  ∨ io_history_cycle io = Raise e ∨ (io_send io = Raise e ∧ is_Exception e = false).
Proof.
  intros H. unfold outcome. unfold_py. py_run H.
  all: intros [= <-] || discriminate || idtac; auto 10.
Qed.

Lemma visit_raises_only_what_it_met_witness :
  outcome (host_step 3 "10.0.0.1" (interrupted_mail (seconds 3))) overdue_host
  = Raise KeyboardInterrupt
  ∧ outcome (host_step 3 "10.0.0.1" (smtp_down (seconds 3))) overdue_host = Ret tt.
Proof.
  split; [|reflexivity].
  destruct (visit_raises_only_what_it_met 3 "10.0.0.1" (interrupted_mail (seconds 3))
              overdue_host {| online := Some false; changed := utcnow 0; alerted := false |}
              KeyboardInterrupt) as [H|[H|[H|[H|[H _]]]]];
    try reflexivity; try discriminate H.
Defined.

(** ** Edge settings *)

(** X16. With a negative interval the first round of visits is made, then
    [time.sleep] refuses the value: the [ValueError] is logged as unhandled
    and the process leaves with status 2 without ever having slept. *)
Theorem negative_interval_stops_after_first_round a ips ora n w :
  interval a < 0 →
  outcome (for_ips a ips 0 (host_in ora 0)) w = Ret tt →
  monitor a ips ora (S n) w
  = (Raise (SystemExit 2),
     emit (ELog ERROR (MsgUnhandled ValueError))
       (exec (for_ips a ips 0 (host_in ora 0)) w)).
Proof.
  intros Hneg Hround. apply Z.ltb_lt in Hneg.
  unfold monitor. cbn [while_true]. unfold cycle, bind at 1 2, sleep.
  unfold outcome, exec in *.
  destruct (for_ips a ips 0 (host_in ora 0) w) as [[[]|e] w1]; [|discriminate].
  by rewrite Hneg.
Qed.

Lemma negative_interval_stops_after_first_round_witness :
  exit_status (outcome (monitor {| interval := -5; alert_after := 300 |}
                          ["10.0.0.1"; "10.0.0.2"]%string (oracle_of []) 4) two_hosts)
  = Some 2
  ∧ pings_of (trace (exec (monitor {| interval := -5; alert_after := 300 |}
                             ["10.0.0.1"; "10.0.0.2"]%string (oracle_of []) 4) two_hosts))
    = ["10.0.0.1"; "10.0.0.2"]%string.
Proof.
  assert (H := negative_interval_stops_after_first_round
                 {| interval := -5; alert_after := 300 |}
                 ["10.0.0.1"; "10.0.0.2"]%string (oracle_of []) 3 two_hosts
                 eq_refl eq_refl).
  unfold outcome, exec. rewrite H. split; reflexivity.
Defined.

(** X17. With a threshold of zero or less, a host found offline at its first
    probe is alerted in that same visit, provided the clock has not gone
    back between the two readings of the visit. *)
Theorem zero_threshold_alerts_at_first_probe a ip io w s :
  a ≤ 0 →
  status w !! ip = Some s → online s = None → alerted s = false →
  io_ping io = Ret false → io_history_cycle io = Ret tt →
  io_clock_change io ≤ io_clock_alert io →
  In (ESend (RaiseAlert ip (int_total_seconds (io_clock_alert io - io_clock_change io))))
     (emitted (host_step a ip io) w).
Proof.
  intros Ha H Hnone Hal Hp Hh Hclock.
  assert (Hdue : (a * 1000000 <=? io_clock_alert io - io_clock_change io) = true)
    by (apply Z.leb_le; lia).
  unfold emitted, exec. unfold_py. unfold total_seconds_ge.
  rewrite Hp, Hh. py_rw H. rewrite Hnone. py_rw H. rewrite Hal, Hdue. py_simpl.
  destruct (io_send io) as [[]|e]; [|destruct (is_Exception e)]; py_simpl;
    rewrite <- ?app_assoc, drop_app_length; simpl; auto 10.
Qed.

Lemma zero_threshold_alerts_at_first_probe_witness :
  In (ESend (RaiseAlert "10.0.0.1" 0))
     (emitted (host_step 0 "10.0.0.1" (calm false (seconds 7))) one_host).
Proof.
  apply (zero_threshold_alerts_at_first_probe 0 "10.0.0.1" (calm false (seconds 7))
           one_host (initial_entry 0)); try reflexivity; vm_compute; discriminate.
Defined.

(** ** The alert policy on a running outage *)

(** X18. With a threshold below 2^34 seconds in absolute value, where the
    float comparison of line 239 is exact: for a host that has been offline
    since its first probe and is found offline again, the visit asks for an
    alert mail exactly when the record is not alerted yet and the threshold
    has elapsed since the first probe, to the microsecond. *)
Theorem offline_visit_alerts_iff_due a ip io w s :
  - 2 ^ 34 < a < 2 ^ 34 →
  status w !! ip = Some s → online s = Some false → aware (changed s) = false →
  io_ping io = Ret false → io_history_cycle io = Ret tt →
  (∃ secs, In (ESend (RaiseAlert ip secs)) (emitted (host_step a ip io) w))
  ↔ (alerted s = false ∧ a * 1000000 ≤ io_clock_alert io - micros (changed s)).
Proof.
  intros _ H Hoff Hnaive Hp Hh. unfold emitted, exec. unfold_py. unfold total_seconds_ge.
  rewrite Hp, Hh. py_rw H. rewrite Hoff. py_rw H. rewrite Hnaive. py_simpl.
  destruct (a * 1000000 <=? io_clock_alert io - micros (changed s)) eqn:Hdue;
    [apply Z.leb_le in Hdue|apply Z.leb_gt in Hdue];
    destruct (alerted s) eqn:Hal; py_simpl.
  2: destruct (io_send io) as [[]|e]; [|destruct (is_Exception e)]; py_simpl.
  all: rewrite <- ?app_assoc, drop_app_length; simpl.
  all: split; [intros [secs Hin]|intros [Hf Hd]].
  all: repeat (destruct Hin as [Hin|Hin]; try discriminate Hin);
    try contradiction; try discriminate; try lia; eauto 10.
Qed.

Lemma offline_visit_alerts_iff_due_witness :
  (∃ secs, In (ESend (RaiseAlert "10.0.0.1" secs))
             (emitted (host_step 3 "10.0.0.1" (calm false 3000000)) overdue_host))
  ∧ ¬ (∃ secs, In (ESend (RaiseAlert "10.0.0.1" secs))
                 (emitted (host_step 3 "10.0.0.1" (calm false 2999999)) overdue_host)).
Proof.
  split.
  - apply (offline_visit_alerts_iff_due 3 "10.0.0.1" (calm false 3000000) overdue_host
             {| online := Some false; changed := utcnow 0; alerted := false |});
      try reflexivity; [by split|]. split; [reflexivity|]. vm_compute. discriminate.
  - intros Hex.
    apply (offline_visit_alerts_iff_due 3 "10.0.0.1" (calm false 2999999) overdue_host
             {| online := Some false; changed := utcnow 0; alerted := false |})
      in Hex as [_ Hdue]; try reflexivity; [|by split].
    vm_compute in Hdue. by apply Hdue.
Defined.

Lemma alerted_visit_silent a ip io w s :
  status w !! ip = Some s → online s = Some false → alerted s = true →
  io_ping io = Ret false →
  status (exec (host_step a ip io) w) !! ip = Some s
  ∧ count (is_alert_for ip) (trace (exec (host_step a ip io) w))
    = count (is_alert_for ip) (trace w).
Proof.
  intros H Hoff Hal Hp.
  assert (Hno : ∀ b, b && negb (alerted s) = true → False).
  { intros b. rewrite Hal, andb_false_r. discriminate. }
  unfold exec. unfold_py. rewrite Hp. py_run H.
  all: try (exfalso; eapply Hno; eassumption).
  all: try congruence.
  all: rewrite ?count_app; unfold count; simpl; split; try done; lia.
Qed.

Lemma other_visit_silent a ip ip' io w :
  ip' ≠ ip →
  count (is_alert_for ip) (trace (exec (host_step a ip' io) w))
  = count (is_alert_for ip) (trace w).
Proof.
  intros Hne. apply String.eqb_neq in Hne.
  unfold exec. unfold_py. repeat first [progress py_simpl | py_case].
  all: rewrite ?count_app; unfold count; simpl; rewrite ?Hne; simpl; lia.
Qed.

(** X19. Once a host is recorded Offline and alerted, no further alert mail
    is requested for it, over any number of cycles, as long as every ping of
    that host fails. *)
Theorem alerted_outage_stays_silent a ips ora n w ip s :
  status w !! ip = Some s → online s = Some false → alerted s = true →
  (∀ c j, ips !! j = Some ip → io_ping (host_in ora c j) = Ret false) →
  count (is_alert_for ip) (trace (exec (monitor a ips ora n) w))
  = count (is_alert_for ip) (trace w).
Proof.
  intros H Hoff Hal Hpings.
  apply (monitor_keeps
           (λ w', status w' !! ip = Some s
                  ∧ count (is_alert_for ip) (trace w') = count (is_alert_for ip) (trace w))
           (λ ip' io, ip' = ip → io_ping io = Ret false)).
  - intros e w' He [Hs Hc]. split; [exact Hs|].
    simpl. rewrite count_app, Hc. unfold count. simpl.
    destruct e as [| | | | |[]|]; try discriminate He; simpl; lia.
  - intros ip' io HQ w' [Hs Hc]. destruct (decide (ip' = ip)) as [->|Hne].
    + destruct (alerted_visit_silent (alert_after a) ip io w' s Hs Hoff Hal (HQ eq_refl))
        as [Hs' Hc']. split; [exact Hs'|congruence].
    + split; [by rewrite host_step_other|]. by rewrite other_visit_silent.
  - intros c j ip' Hj ->. by apply (Hpings c j).
  - by split.
Qed.

Lemma alerted_outage_stays_silent_witness :
  count (is_alert_for "10.0.0.1")
    (trace (exec (monitor spec_args ["10.0.0.1"%string] always_offline 5) alerted_host))
  = 0%nat.
Proof.
  apply (alerted_outage_stays_silent spec_args ["10.0.0.1"%string] always_offline 5
           alerted_host "10.0.0.1"
           {| online := Some false; changed := utcnow 0; alerted := true |});
    reflexivity.
Defined.

(** ** What the dashboard shows *)




Lemma host_step_publishes a ip ip' io w :
  outcome (host_step a ip io) w = Ret tt →
  ip' = ip ∨ controller_status w !! ip' = Some (Live ip') →
  controller_status (exec (host_step a ip io) w) !! ip' = Some (Live ip').
Proof.
  intros Hret Hor. destruct (decide (ip = ip')) as [<-|Hne].
  - by destruct (dashboard_reads_live_record a ip io w Hret).
  - destruct Hor as [->|Hlive]; [done|]. by rewrite host_step_other_published.
Qed.

Lemma for_ips_publishes a ips i io w ip :
  outcome (for_ips a ips i io) w = Ret tt →
  In ip ips ∨ controller_status w !! ip = Some (Live ip) →
  controller_status (exec (for_ips a ips i io) w) !! ip = Some (Live ip).
Proof.
  revert i w. induction ips as [|ip0 rest IH]; intros i w; simpl.
  - intros _ [[]|H]. exact H.
  - rewrite outcome_bind, exec_bind.
    destruct (outcome (host_step (alert_after a) ip0 (io i)) w) as [[]|e] eqn:E;
      [|discriminate].
    intros Hrest Hor. apply (IH _ _ Hrest).
    destruct Hor as [[->|Hin]|Hlive]; [right|by left|right].
    + apply (host_step_publishes _ _ _ _ _ E). by left.
    + apply (host_step_publishes _ _ _ _ _ E). by right.
Qed.

(** X21. After a cycle that completed, every host of the list is on the
    dashboard, and what is shown for it is the loop's own record. *)
Theorem cycle_publishes_every_host a ips ora c w ip :
  outcome (cycle a ips ora c) w = Ret tt → In ip ips →
  controller_status (exec (cycle a ips ora c) w) !! ip = Some (Live ip)
  ∧ dashboard_view (exec (cycle a ips ora c) w) ip = status (exec (cycle a ips ora c) w) !! ip.
Proof.
  intros Hret Hin.
  assert (Hlive : controller_status (exec (cycle a ips ora c) w) !! ip = Some (Live ip)).
  { revert Hret. unfold cycle. rewrite outcome_bind, exec_bind.
    destruct (outcome (for_ips a ips 0 (host_in ora c)) w) as [[]|e] eqn:E; [|discriminate].
    intros Hsleep. unfold sleep, exec in *.
    destruct (interval a <? 0); simpl; apply (for_ips_publishes _ _ _ _ _ _ E); by left. }
  split; [exact Hlive|]. unfold dashboard_view. by rewrite Hlive.
Qed.

Lemma cycle_publishes_every_host_witness :
  dashboard_label <$>
    dashboard_view (exec (cycle spec_args ["10.0.0.1"; "10.0.0.2"]%string (oracle_of [false]) 0)
                      two_hosts) "10.0.0.2"
  = Some "ONLINE"%string.
Proof.
  destruct (cycle_publishes_every_host spec_args ["10.0.0.1"; "10.0.0.2"]%string
              (oracle_of [false]) 0 two_hosts "10.0.0.2") as [_ Hview].
  - reflexivity.
  - simpl. auto.
  - rewrite Hview. reflexivity.
Defined.

(** ** The subtraction of time stamps *)

(** X22. In a visit whose ping and history calls return, [TypeError] is
    raised exactly when the host is found offline and its record was Online,
    or was Offline with an aware time of change; at a first probe it is
    never raised. *)
Theorem visit_type_error_iff a ip io w s up :
  status w !! ip = Some s → io_ping io = Ret up →
  io_history_change io = Ret tt → io_history_cycle io = Ret tt →
  outcome (host_step a ip io) w = Raise TypeError
  ↔ up = false
    ∧ (online s = Some true ∨ (online s = Some false ∧ aware (changed s) = true)).
Proof.
  intros H Hp Hc Hh. unfold outcome. unfold_py. rewrite Hp, Hc, Hh. py_run H.
  all: split; [intros Hr; try discriminate Hr|intros [Hup [Hon|[Hon Haw]]]].
  all: try (injection Hr as ->; simpl in *; discriminate).
  all: repeat match goal with b : bool |- _ => destruct b end; simpl in *;
    try discriminate; try congruence; auto.
Qed.

Lemma visit_type_error_iff_witness :
  outcome (host_step 3 "10.0.0.1" (calm false (seconds 1))) steady_host = Raise TypeError
  ∧ outcome (host_step 3 "10.0.0.1" (calm false (seconds 1))) one_host ≠ Raise TypeError.
Proof.
  split.
  - apply (visit_type_error_iff 3 "10.0.0.1" (calm false (seconds 1)) steady_host
             {| online := Some true; changed := utcnow 0; alerted := false |} false);
      try reflexivity. split; [reflexivity|by left].
  - intros Hr.
    apply (visit_type_error_iff 3 "10.0.0.1" (calm false (seconds 1)) one_host
             (initial_entry 0) false) in Hr as [_ [Hon|[Hon _]]];
      try reflexivity; discriminate Hon.
Defined.

(** ** A good start *)

(** X23. When the collaborators of the start-up answer, the host file yields
    at least one host and the five mail settings are usable, [main] enters the
    loop with one Unknown record per host and nothing published, after
    exactly four calls: [init_db], the log line with the number of hosts,
    [init_db] again and the start of the dashboard. *)
Theorem good_start_reaches_loop py_int a start environ ora n ips cfg :
  io_init_db start = Ret tt → io_basicConfig start = Ret tt →
  load_ips (io_ip_file start) = Ret ips → ips ≠ [] →
  get_email_cfg py_int environ = Ret cfg →
  io_init_db_again start = Ret tt → io_start_dashboard start = Ret tt →
  main py_int a start environ ora n boot =
  monitor a ips ora n
    {| status := build_status ips 0 (io_clock_init start) ∅;
       controller_status := ∅;
       trace := [EInitDb;
                 ELog INFO (MsgMonitoring (length ips) (interval a) (alert_after a));
                 EInitDb; EDashboard] |}.
Proof.
  intros Hdb Hlog Hips Hne Hcfg Hdb2 Hdash.
  unfold main, bind, call, lift_result, logging.
  rewrite Hdb, Hlog, Hips. destruct ips as [|ip rest]; [done|].
  by rewrite Hcfg, Hdb2, Hdash.
Qed.

Lemma good_start_reaches_loop_witness :
  run_main [true] 1
  = monitor spec_args ["10.0.0.1"; "10.0.0.2"]%string (oracle_of [true]) 1
      {| status := build_status ["10.0.0.1"; "10.0.0.2"]%string 0 (λ _, 0) ∅;
         controller_status := ∅;
         trace := [EInitDb; ELog INFO (MsgMonitoring 2 1 3); EInitDb; EDashboard] |}.
Proof.
  apply (good_start_reaches_loop int_465 spec_args (fair_start hosts_file) full_environ
           (oracle_of [true]) 1 ["10.0.0.1"; "10.0.0.2"]%string
           [("EMAIL_HOST", CfgStr "smtp.example.org"); ("EMAIL_PORT", CfgInt 465);
            ("EMAIL_USER", CfgStr "monitor@example.org"); ("EMAIL_PASS", CfgStr "secret");
            ("EMAIL_TO", CfgStr "ops@example.org")]%string);
    try reflexivity. discriminate.
Defined.

(** ** Reading the dashboard while the loop runs *)

(** C8 (as stated) fails.  After a visit that found the host online at
    second 0, the host's entry is the loop's record, and the next visit finds
    the host offline.  The first store of the state change (line 222) leaves
    a world in which a read shows the new state Offline with the time of
    change of second 0; the rest of the state change, run from that world,
    is the whole effect of [observe] and only then sets the time to second
    1. *)
Lemma dashboard_sees_half_updated_record :
  let ip := "10.0.0.1"%string in
  let io := calm false (seconds 1) in
  let w := exec (host_step 3 ip (calm true 0)) one_host in
  let mid := exec (status_set ip (with_online false)) w in
  controller_status w !! ip = Some (Live ip)
  ∧ dashboard_view w ip
    = Some {| online := Some true; changed := utcnow 0; alerted := false |}
  ∧ dashboard_view mid ip
    = Some {| online := Some false; changed := utcnow 0; alerted := false |}
  ∧ observe ip false io w
    = (status_set ip (with_changed (now_UTC (io_clock_change io))) ;;
       status_set ip (with_alerted false) ;;
       logging WARNING (MsgChanged ip (state_str false)) ;;
       s <- status_get ip ;;
       publish ip (Copy s) ;;
       log_status_change ip (state_str false) (Isoformat (changed s))
         (io_history_change io)) mid
  ∧ status (exec (observe ip false io) w) !! ip
    = Some {| online := Some false; changed := now_UTC (seconds 1); alerted := false |}.
Proof. vm_compute. repeat split. Qed.

(** C8 (as amended). Once a visit of a host has returned, what a read of the
    dashboard gets for that host is the loop's own record, not a copy: it
    equals the record as it stands, and any single store the loop then makes
    into the record is seen by a read made right after it. *)
Theorem dashboard_view_is_the_live_record a ip io w :
  outcome (host_step a ip io) w = Ret tt →
  dashboard_view (exec (host_step a ip io) w) ip
  = status (exec (host_step a ip io) w) !! ip
  ∧ ∀ f, dashboard_view (exec (status_set ip f) (exec (host_step a ip io) w)) ip
         = f <$> status (exec (host_step a ip io) w) !! ip.
Proof.
  intros Hret. destruct (dashboard_reads_live_record a ip io w Hret) as [Hlive Hview].
  split; [exact Hview|]. intros f. unfold dashboard_view, exec, status_set. simpl.
  unfold exec in Hlive. rewrite Hlive. apply lookup_alter_eq.
Qed.

Lemma dashboard_view_is_the_live_record_witness :
  dashboard_view
    (exec (status_set "10.0.0.1" (with_online false))
       (exec (host_step 3 "10.0.0.1" (calm true 0)) one_host)) "10.0.0.1"
  = Some {| online := Some false; changed := utcnow 0; alerted := false |}.
Proof.
  destruct (dashboard_view_is_the_live_record 3 "10.0.0.1" (calm true 0) one_host eq_refl)
    as [_ Hstore].
  rewrite Hstore. reflexivity.
Defined.
